(** * The risk-scoring pipeline of [risk_scoring.py]

    Shallow embedding of [RiskScorer.calculate_basic_metrics] and
    [RiskScorer.compute_risk_score], with the properties the
    specification states about them, then of [save_risk_assessment] and
    [main] of the same file and of [fix_chainlink.py], with further
    properties read off the code.

    Number model.  Python's [float] and numpy's [float64] are idealised
    as the real numbers [R]: every arithmetic operation is exact, there
    is no rounding error, no infinity and no NaN.  A division whose
    divisor is zero has no real result and is modelled as a raised
    exception, so that "this code never divides by zero" is a statement
    about the embedding.  Python's [int] is [Z].  What follows is about
    this exact-arithmetic reading of the program, with one exception:
    whether the score can be exactly 90 depends on rounding, so the
    score is embedded a second time with every operation rounded to
    binary64 (module [Binary64]).

    What is left out: the [print] narration and the two clock readings
    ([timestamp], [assessment_time]).  Files are modelled by their
    parsed content and writing them does not fail; the chain is what the
    calls made through [w3] answer. *)

From Stdlib Require Import String Bool ZArith List Reals Lra Lia.
From Stdlib Require PrimFloat FloatOps SpecFloat.
Import ListNotations.
Open Scope R_scope.

(* ================================================================= *)
(** ** Python and numpy primitives used by the source *)

Module Py.

(** Exceptions the modelled operations can raise. *)
Inductive exn : Type :=
| ZeroDivisionError
| KeyError (key : string).

(** Outcome of running a piece of Python: an exception or a value. *)
Inductive result (A : Type) : Type :=
| Raise (e : exn)
| Return (a : A).

Arguments Raise {A} e.
Arguments Return {A} a.

Definition bind {A B : Type} (c : result A) (k : A -> result B) : result B :=
  match c with
  | Raise e => Raise e
  | Return a => k a
  end.

(** [a / b]: true division; a zero divisor raises. *)
Definition truediv (a b : R) : result R :=
  if Req_dec_T b 0 then Raise ZeroDivisionError else Return (a / b).

(** [min(a, b)] of two numbers: the builtin keeps its first argument
    unless a later one is strictly smaller. *)
Definition py_min (a b : R) : R :=
  if Rlt_dec b a then b else a.

(** [sum(l)]: left-to-right accumulation starting from [0]. *)
Definition py_sum (l : list R) : R := fold_left Rplus l 0.

(** Round to the nearest integer, ties to the even one (what both
    [round] on a [float] and numpy's [rint] do). *)
Definition rint (x : R) : Z :=
  let f := Int_part x in
  let d := x - IZR f in
  if Rlt_dec d (1 / 2) then f
  else if Rlt_dec (1 / 2) d then (f + 1)%Z
  else if Z.even f then f else (f + 1)%Z.

(** [round(x, ndigits)] for a non-negative [ndigits]. *)
Definition py_round (x : R) (ndigits : nat) : R :=
  IZR (rint (x * 10 ^ ndigits)) / 10 ^ ndigits.

(** [np.mean(l)]: the sum of the entries over their number. *)
Definition np_mean (l : list R) : result R :=
  truediv (py_sum l) (INR (length l)).

(** [np.var(l)] with the default [ddof = 0]: mean of the squared
    deviations from the mean. *)
Definition np_var (l : list R) : result R :=
  bind (truediv (py_sum l) (INR (length l))) (fun arrmean =>
  let x := map (fun a => a - arrmean) l in
  let x2 := map (fun d => d * d) x in
  truediv (py_sum x2) (INR (length l))).

(** [np.std(l)]: square root of [np.var(l)]. *)
Definition np_std (l : list R) : result R :=
  bind (np_var l) (fun v => Return (sqrt v)).

(** A Python [dict] with string keys, as an association list. *)
Definition dict (V : Type) : Type := list (string * V).

Fixpoint get {V : Type} (d : dict V) (k : string) : option V :=
  match d with
  | [] => None
  | (k', v) :: d' => if String.eqb k k' then Some v else get d' k
  end.

(** [k in d] *)
Definition contains {V : Type} (d : dict V) (k : string) : bool :=
  match get d k with Some _ => true | None => false end.

(** [d[k]] *)
Definition getitem {V : Type} (d : dict V) (k : string) : result V :=
  match get d k with Some v => Return v | None => Raise (KeyError k) end.

(** Truth value of a dict: empty is falsy. *)
Definition truthy {V : Type} (d : dict V) : bool :=
  match d with [] => false | _ :: _ => true end.

End Py.

Import Py.

Notation "x <- c ;; k" := (bind c (fun x => k))
  (at level 61, c at next level, right associativity).

(* ================================================================= *)
(** ** Data model *)

(** One decoded swap event; [eth_amount] is the only field read. *)
Record SwapRecord : Type := mkSwap { eth_amount : R }.

(** The loaded [structured_swaps.json]: a dict of which only the key
    ['processed_events'] is read; its value is the list of swaps. *)
Definition SwapData : Type := dict (list SwapRecord).

(** The [metrics] dict built by [calculate_basic_metrics]. *)
Record Metrics : Type := mkMetrics {
  total_volume_eth : R;
  avg_volume_eth : R;
  volume_std_eth : R;
  volume_cv : R;
  swap_count : Z;
  time_range_minutes : Z;
  volume_per_minute : R
}.

(** [self.risk_weights] *)
Record RiskWeights : Type := mkWeights {
  volume_volatility : R;
  liquidity_depth : R;
  concentration_risk : R;
  time_decay : R
}.

Definition risk_weights : RiskWeights :=
  {| volume_volatility := 0.35;
     liquidity_depth := 0.30;
     concentration_risk := 0.25;
     time_decay := 0.10 |}.

(** The local dict [normalized]. *)
Record Normalized : Type := mkNormalized {
  volatility : R;
  liquidity : R;
  concentration : R
}.

Inductive RiskLevel : Type := LOW | MEDIUM | HIGH.

(** The [color] emoji: green, yellow and red circle. *)
Inductive Color : Type := Green | Yellow | Red.

Record Components : Type := mkComponents {
  volatility_contrib : R;
  liquidity_contrib : R;
  concentration_contrib : R
}.

(** The dict returned on success (without [timestamp]). *)
Record RiskResult : Type := mkRiskResult {
  risk_score : R;
  risk_level : RiskLevel;
  color : Color;
  components : Components;
  normalized_metrics : Normalized
}.

(** What [compute_risk_score] returns: [{"error": msg}] or the result. *)
Inductive ScoreResult : Type :=
| ErrorResult (error : string)
| Assessment (r : RiskResult).

(* ================================================================= *)
(** ** [RiskScorer.calculate_basic_metrics] *)

(** The argument is [None] or a dict; the function returns [None] or
    the metrics dict. *)
Definition calculate_basic_metrics (swap_data : option SwapData)
  : result (option Metrics) :=
  match swap_data with
  | None => Return None
  | Some d =>
    if negb (truthy d) || negb (contains d "processed_events") then Return None
    else
      swaps <- getitem d "processed_events" ;;
      if (length swaps <? 2)%nat then Return None
      else
        let eth_amounts := map eth_amount swaps in
        let total := py_sum eth_amounts in
        avg <- np_mean eth_amounts ;;
        std <- (if (1 <? length eth_amounts)%nat
                then np_std eth_amounts else Return 0) ;;
        cv <- (m <- np_mean eth_amounts ;;
               if Rlt_dec 0 m
               then s <- np_std eth_amounts ;;
                    m' <- np_mean eth_amounts ;;
                    truediv s m'
               else Return 0) ;;
        let count := Z.of_nat (length swaps) in
        let minutes := 5%Z in
        vpm <- truediv total (IZR minutes) ;;
        Return (Some {| total_volume_eth := total;
                        avg_volume_eth := avg;
                        volume_std_eth := std;
                        volume_cv := cv;
                        swap_count := count;
                        time_range_minutes := minutes;
                        volume_per_minute := vpm |})
  end.

(* ================================================================= *)
(** ** [RiskScorer.compute_risk_score] *)

(** Lines 63-80: the [normalized] dict. *)
Definition normalize (m : Metrics) : result Normalized :=
  let vol_norm := py_min (volume_cv m * 10) 1 in
  q <- truediv (volume_per_minute m) 100 ;;
  let liquidity_norm := 1 - py_min q 1 in
  c <- truediv (IZR (swap_count m)) 10 ;;
  let concentration_norm := 1 - py_min c 1 in
  Return {| volatility := vol_norm;
            liquidity := liquidity_norm;
            concentration := concentration_norm |}.

(** Lines 82-89: [final_score], the weighted sum scaled to 0-100. *)
Definition weighted_score (n : Normalized) : R :=
  let risk_score := 0 in
  let risk_score := risk_score + volatility n * volume_volatility risk_weights in
  let risk_score := risk_score + liquidity n * liquidity_depth risk_weights in
  let risk_score := risk_score + concentration n * concentration_risk risk_weights in
  risk_score * 100.

(** Lines 92-100: risk categorisation. *)
Definition categorize (final_score : R) : RiskLevel * Color :=
  if Rlt_dec final_score 30 then (LOW, Green)
  else if Rlt_dec final_score 70 then (MEDIUM, Yellow)
  else (HIGH, Red).

(** Lines 102-113: the returned dict. *)
Definition build_result (n : Normalized) (final_score : R)
    (lc : RiskLevel * Color) : RiskResult :=
  {| risk_score := py_round final_score 2;
     risk_level := fst lc;
     color := snd lc;
     components :=
       {| volatility_contrib :=
            py_round (volatility n * volume_volatility risk_weights * 100) 2;
          liquidity_contrib :=
            py_round (liquidity n * liquidity_depth risk_weights * 100) 2;
          concentration_contrib :=
            py_round (concentration n * concentration_risk risk_weights * 100) 2 |};
     normalized_metrics :=
       {| volatility := py_round (volatility n) 3;
          liquidity := py_round (liquidity n) 3;
          concentration := py_round (concentration n) 3 |} |}.

(** The argument is a metrics dict or a falsy value ([None], [{}]),
    the latter modelled by [None]. *)
Definition compute_risk_score (metrics : option Metrics) : result ScoreResult :=
  match metrics with
  | None => Return (ErrorResult "No metrics available")
  | Some m =>
    n <- normalize m ;;
    let final_score := weighted_score n in
    Return (Assessment (build_result n final_score (categorize final_score)))
  end.

(** [main], from the loaded data on: the metrics, then the score when
    there are metrics. *)
Definition pipeline (swap_data : option SwapData)
  : result (option (Metrics * ScoreResult)) :=
  metrics <- calculate_basic_metrics swap_data ;;
  match metrics with
  | None => Return None
  | Some m =>
    risk_result <- compute_risk_score (Some m) ;;
    Return (Some (m, risk_result))
  end.

(* ================================================================= *)
(** ** The specification's vocabulary *)

(** Σ over a list. *)
Definition Rsum (l : list R) : R := fold_right Rplus 0 l.

(** Arithmetic mean, as the specification writes it: total over count. *)
Definition mean_of (l : list R) : R := Rsum l / INR (length l).

(** Population (biased) standard deviation: the squared deviations are
    averaged over [n]. *)
Definition population_std (l : list R) : R :=
  sqrt (Rsum (map (fun x => (x - mean_of l) ^ 2) l) / INR (length l)).

(** Sample-corrected standard deviation: averaged over [n - 1]. *)
Definition sample_std (l : list R) : R :=
  sqrt (Rsum (map (fun x => (x - mean_of l) ^ 2) l) / (INR (length l) - 1)).

(** A metrics value is valid when the three inputs of the score are
    non-negative. *)
Definition valid_metrics (m : Metrics) : Prop :=
  0 <= volume_cv m /\ 0 <= volume_per_minute m /\ (0 <= swap_count m)%Z.

(** [lo <= x <= hi] *)
Definition within (lo hi x : R) : Prop := lo <= x <= hi.

(** The weights that [compute_risk_score] multiplies into the sum. *)
Definition applied_weights : list R :=
  [volume_volatility risk_weights; liquidity_depth risk_weights;
   concentration_risk risk_weights].

(** All the weights of the table. *)
Definition table_weights : list R :=
  applied_weights ++ [time_decay risk_weights].

(** The swap data whose ['processed_events'] are swaps of the given
    amounts. *)
Definition swaps_of (amounts : list R) : list SwapRecord := map mkSwap amounts.

Definition data_of (amounts : list R) : SwapData :=
  [("processed_events"%string, swaps_of amounts)].

(** Metrics with the given three inputs of the score; the fields the
    score does not read are zero. *)
Definition metrics_of (cv vpm : R) (count : Z) : Metrics :=
  {| total_volume_eth := 0; avg_volume_eth := 0; volume_std_eth := 0;
     volume_cv := cv; swap_count := count; time_range_minutes := 5;
     volume_per_minute := vpm |}.

(** The swap-record sequence of the input, when there is one: the
    input is a dict and has the key ['processed_events']. *)
Definition swap_records (swap_data : option SwapData)
  : option (list SwapRecord) :=
  match swap_data with
  | None => None
  | Some d => get d "processed_events"
  end.

(** The score as a weighted sum whose weights total 1: the unrounded
    score is [100 * Σ normalized_i * weight_i] over the applied
    factors, the weights of the sum total [1.0], and every normalized
    value is in [0,1]. *)
Definition full_weighted_sum (m : Metrics) : Prop :=
  exists n : Normalized,
    normalize m = Return n /\
    weighted_score n =
      100 * Rsum (map (fun p => fst p * snd p)
                      (combine [volatility n; liquidity n; concentration n]
                               applied_weights)) /\
    Rsum applied_weights = 1 /\
    within 0 1 (volatility n) /\ within 0 1 (liquidity n) /\
    within 0 1 (concentration n).

(** The metrics and the result the end-to-end example expects for three
    swaps of 10 ETH. *)
Definition example_metrics : Metrics :=
  {| total_volume_eth := 30; avg_volume_eth := 10; volume_std_eth := 0;
     volume_cv := 0; swap_count := 3; time_range_minutes := 5;
     volume_per_minute := 6 |}.

Definition example_normalized : Normalized :=
  {| volatility := 0; liquidity := 0.94; concentration := 0.7 |}.

Definition example_result : RiskResult :=
  {| risk_score := 45.7;
     risk_level := MEDIUM;
     color := Yellow;
     components := {| volatility_contrib := 0;
                      liquidity_contrib := 28.2;
                      concentration_contrib := 17.5 |};
     normalized_metrics := example_normalized |}.

(* ================================================================= *)
(** ** [RiskScorer.save_risk_assessment] and [main] of [risk_scoring.py] *)

Module RiskScoringScript.

(** ['metadata'] of the saved assessment (without [assessment_time],
    which is [datetime.now()]). *)
Record Metadata : Type := mkMetadata {
  model_version : string;
  pipeline_phase : string
}.

Record Interpretation : Type := mkInterpretation {
  low_risk : string;
  medium_risk : string;
  high_risk : string
}.

(** The [assessment] dict. *)
Record AssessmentDoc : Type := mkAssessmentDoc {
  metadata : Metadata;
  metrics : Metrics;
  risk_assessment : ScoreResult;
  interpretation : Interpretation
}.

(** The two files the script touches, by their parsed JSON content:
    [None] is a file that does not exist. *)
Record Disk : Type := mkDisk {
  structured_swaps_json : option (option SwapData);
  risk_assessment_json : option AssessmentDoc
}.

(** Builds the assessment, writes it to ['risk_assessment.json'] and
    returns it. *)
Definition save_risk_assessment (metrics : Metrics) (risk_result : ScoreResult)
    (disk : Disk) : AssessmentDoc * Disk :=
  let assessment :=
    {| metadata := {| model_version := "v0.1-basic";
                      pipeline_phase := "3-ML-Risk-Scoring" |};
       metrics := metrics;
       risk_assessment := risk_result;
       interpretation :=
         {| low_risk := "< 30: Normal market activity";
            medium_risk := "30-70: Elevated monitoring recommended";
            high_risk := "> 70: Potential risk event" |} |} in
  (assessment,
   {| structured_swaps_json := structured_swaps_json disk;
      risk_assessment_json := Some assessment |}).

(** [main]: a missing ['structured_swaps.json'] ([FileNotFoundError]) ends
    the run; otherwise the metrics are computed and, when there are
    metrics, scored and saved. *)
Definition main (disk : Disk) : result Disk :=
  match structured_swaps_json disk with
  | None => Return disk
  | Some swap_data =>
    metrics <- calculate_basic_metrics swap_data ;;
    match metrics with
    | None => Return disk
    | Some m =>
      risk_result <- compute_risk_score (Some m) ;;
      let (assessment, disk') := save_risk_assessment m risk_result disk in
      Return disk'
    end
  end.

End RiskScoringScript.

(* ================================================================= *)
(** ** [fix_chainlink.py] *)

Module FixChainlink.

(** The tuple returned by [latestRoundData().call()]. *)
Record RoundData : Type := mkRoundData {
  round_id : Z;
  price : Z;
  started_at : Z;
  updated_at : Z;
  answered_in_round : Z
}.

(** What building the contract and calling it does: it raises, or it
    returns the round data. *)
Inductive CallOutcome : Type :=
| CallRaises
| CallReturns (r : RoundData).

(** The chain as the script sees it through [w3]. *)
Record Web3 : Type := mkWeb3 {
  is_connected : bool;
  latestRoundData : CallOutcome
}.

Definition CHAINLINK_ETH_USD : string :=
  "0x5f4eC3Df9cbd43714FE2740f5E3616155c5b8419".

(** The [price_data] dict; ['updated_at'] is the timestamp or the string
    ['fallback'], and ['contract'] and ['note'] are present in one of
    the two branches each. *)
Record PriceData : Type := mkPriceData {
  eth_usd : R;
  pd_updated_at : Z + string;
  source : string;
  contract : option string;
  note : option string
}.

(** The [except Exception] branch: the development price. *)
Definition fallback : option R * option PriceData :=
  (Some 3000,
   Some {| eth_usd := 3000;
           pd_updated_at := inr "fallback"%string;
           source := "fallback";
           contract := None;
           note := Some "Chainlink fetch failed, using development price"%string |}).

(** [fix_chainlink_integration]: the argument [disk] is the content of
    ['chainlink_fixed.json'] before the call; the result is the returned
    value ([None] or the price) and the content of the file after. *)
Definition fix_chainlink_integration (w3 : Web3) (disk : option PriceData)
  : option R * option PriceData :=
  if negb (is_connected w3) then (None, disk)
  else
    match latestRoundData w3 with
    | CallReturns rd =>
      match truediv (IZR (price rd)) (IZR (10 ^ 8)) with
      | Return eth_price_usd =>
        (Some eth_price_usd,
         Some {| eth_usd := eth_price_usd;
                 pd_updated_at := inl (updated_at rd);
                 source := "Chainlink";
                 contract := Some CHAINLINK_ETH_USD;
                 note := None |})
      | Raise _ => fallback
      end
    | CallRaises => fallback
    end.

(** Truth value of the returned price: [None] and [0.0] are falsy. *)
Definition price_truthy (eth_price : option R) : bool :=
  match eth_price with
  | None => false
  | Some x => if Req_dec_T x 0 then false else true
  end.

(** [main]: whether the block under [if eth_price:] runs (it prints
    that USD normalization is ready), and the file after the run. *)
Definition main (w3 : Web3) (disk : option PriceData) : bool * option PriceData :=
  let (eth_price, disk') := fix_chainlink_integration w3 disk in
  (price_truthy eth_price, disk').

End FixChainlink.

(* ================================================================= *)
(** ** The score in binary64 *)

(** A second embedding of the score (lines 63-89), in which every
    arithmetic operation returns the binary64 value nearest to its
    exact result, ties to even, as Python's [float] does.  Overflow to
    infinity is not modelled; gradual underflow is. *)
Module Binary64.

(** [2 ^ e] *)
Definition bpow (e : Z) : R := powerRZ 2 e.

(** The binade of [x]: the [e] with [2 ^ (e - 1) <= |x| < 2 ^ e]. *)
Definition mag (x : R) : Z := (Int_part (ln (Rabs x) / ln 2) + 1)%Z.

(** Exponent of the last place of the values of binade [e]: 53
    significant bits, and no exponent below that of the subnormals. *)
Definition fexp (e : Z) : Z := Z.max (e - 53) (-1074).

(** Rounding to the nearest binary64 value, ties to even. *)
Definition rnd (x : R) : R :=
  let e := fexp (mag x) in
  IZR (rint (x / bpow e)) * bpow e.

Definition add (a b : R) : R := rnd (a + b).
Definition sub (a b : R) : R := rnd (a - b).
Definition mul (a b : R) : R := rnd (a * b).

Definition truediv (a b : R) : result R :=
  if Req_dec_T b 0 then Raise ZeroDivisionError else Return (rnd (a / b)).

(** [self.risk_weights]: each decimal literal denotes the nearest
    binary64 value. *)
Definition risk_weights : RiskWeights :=
  {| volume_volatility := rnd 0.35;
     liquidity_depth := rnd 0.30;
     concentration_risk := rnd 0.25;
     time_decay := rnd 0.10 |}.

(** Lines 63-80. *)
Definition normalize (m : Metrics) : result Normalized :=
  let vol_norm := py_min (mul (volume_cv m) 10) 1 in
  bind (truediv (volume_per_minute m) 100) (fun q =>
  let liquidity_norm := sub 1 (py_min q 1) in
  bind (truediv (IZR (swap_count m)) 10) (fun c =>
  let concentration_norm := sub 1 (py_min c 1) in
  Return {| volatility := vol_norm;
            liquidity := liquidity_norm;
            concentration := concentration_norm |})).

(** Lines 82-89. *)
Definition weighted_score (n : Normalized) : R :=
  let risk_score := 0 in
  let risk_score :=
    add risk_score (mul (volatility n) (volume_volatility risk_weights)) in
  let risk_score :=
    add risk_score (mul (liquidity n) (liquidity_depth risk_weights)) in
  let risk_score :=
    add risk_score (mul (concentration n) (concentration_risk risk_weights)) in
  mul risk_score 100.

End Binary64.

(** Lines 82-89 once more, on the binary64 numbers of the kernel, which
    compute: a check of the rounding above against the hardware's. *)
Module KernelFloat.

Import PrimFloat.

Definition weighted_score (volatility liquidity concentration : float) : float :=
  let risk_score := 0%float in
  let risk_score := (risk_score + volatility * 0.35)%float in
  let risk_score := (risk_score + liquidity * 0.30)%float in
  let risk_score := (risk_score + concentration * 0.25)%float in
  (risk_score * 100)%float.

End KernelFloat.

(** The maximum achievable score is 90: the unrounded score is at most
    90 for every valid metrics value and equals exactly 90 for one. *)
Definition max_score_is_90 : Prop :=
  (forall m : Metrics, valid_metrics m ->
     exists n, Binary64.normalize m = Return n /\
               Binary64.weighted_score n <= 90) /\
  (exists (m : Metrics) (n : Normalized),
     valid_metrics m /\ Binary64.normalize m = Return n /\
     Binary64.weighted_score n = 90).

(** The binary64 value printed as [89.99999999999999]: [90 - 2 ^ -46]. *)
Definition largest_score : R := 6333186975989759 * Binary64.bpow (-46).

(* ================================================================= *)
(** ** Vocabulary of the further properties *)

(** LOW < MEDIUM < HIGH. *)
Definition level_rank (l : RiskLevel) : nat :=
  match l with LOW => 0 | MEDIUM => 1 | HIGH => 2 end.

(* ================================================================= *)
(** ** Lemmas on the primitives *)

Section Primitives.

Lemma truediv_ok (a b : R) : b <> 0 -> truediv a b = Return (a / b).
Proof.
  intros Hb. unfold truediv. destruct (Req_dec_T b 0); [contradiction | reflexivity].
Qed.

Lemma py_min_Rmin (a b : R) : py_min a b = Rmin a b.
Proof.
  unfold py_min, Rmin.
  destruct (Rlt_dec b a), (Rle_dec a b); lra.
Qed.

Lemma py_min_l (a b : R) : a <= b -> py_min a b = a.
Proof. intros. unfold py_min. destruct (Rlt_dec b a); lra. Qed.

Lemma py_min_r (a b : R) : b < a -> py_min a b = b.
Proof. intros. unfold py_min. destruct (Rlt_dec b a); lra. Qed.

Lemma py_min_le_r (a b : R) : py_min a b <= b.
Proof. unfold py_min. destruct (Rlt_dec b a); lra. Qed.

Lemma py_min_le_l (a b : R) : py_min a b <= a.
Proof. unfold py_min. destruct (Rlt_dec b a); lra. Qed.

Lemma py_min_ge (a b c : R) : c <= a -> c <= b -> c <= py_min a b.
Proof. intros. unfold py_min. destruct (Rlt_dec b a); lra. Qed.

Lemma fold_left_Rplus_acc (l : list R) (a : R) :
  fold_left Rplus l a = a + fold_left Rplus l 0.
Proof.
  revert a. induction l as [|x l IH]; intros a; simpl.
  - lra.
  - rewrite (IH (a + x)), (IH (0 + x)). lra.
Qed.

Lemma py_sum_Rsum (l : list R) : py_sum l = Rsum l.
Proof.
  unfold py_sum. induction l as [|x l IH]; simpl.
  - reflexivity.
  - rewrite fold_left_Rplus_acc, IH. lra.
Qed.

Lemma Rsum_nonneg (l : list R) : Forall (fun x => 0 <= x) l -> 0 <= Rsum l.
Proof.
  induction 1 as [|x l Hx _ IH]; simpl; lra.
Qed.

Lemma INR_length_pos {A : Type} (l : list A) :
  (1 <= length l)%nat -> 0 < INR (length l).
Proof. intros H. apply lt_0_INR. lia. Qed.

Lemma np_mean_ok (l : list R) :
  (1 <= length l)%nat -> np_mean l = Return (mean_of l).
Proof.
  intros H. unfold np_mean, mean_of. rewrite py_sum_Rsum.
  apply truediv_ok. pose proof (INR_length_pos l H). lra.
Qed.

Lemma np_std_ok (l : list R) :
  (1 <= length l)%nat -> np_std l = Return (population_std l).
Proof.
  intros H. pose proof (INR_length_pos l H) as Hn.
  unfold np_std, np_var, population_std, mean_of.
  rewrite py_sum_Rsum, truediv_ok by lra. cbn [bind].
  rewrite py_sum_Rsum, truediv_ok by lra. cbn [bind].
  rewrite map_map.
  rewrite (map_ext _ (fun x => (x - Rsum l / INR (length l)) ^ 2)); [reflexivity|].
  intros a. ring.
Qed.

Lemma population_std_nonneg (l : list R) : 0 <= population_std l.
Proof. apply sqrt_pos. Qed.

(** Rounding to the nearest integer stays between the integers that
    bound its argument. *)
Lemma rint_le (x : R) (k : Z) : x <= IZR k -> (rint x <= k)%Z.
Proof.
  intros Hx. unfold rint.
  destruct (base_Int_part x) as [Hlo Hhi].
  set (f := Int_part x) in *.
  assert (Hfk : (f <= k)%Z) by (apply le_IZR; lra).
  destruct (Rlt_dec (x - IZR f) (1 / 2)) as [|Hd]; [exact Hfk|].
  assert (Hne : f <> k) by (intros ->; lra).
  destruct (Rlt_dec (1 / 2) (x - IZR f)); [lia|].
  destruct (Z.even f); lia.
Qed.

Lemma rint_ge (x : R) (k : Z) : IZR k <= x -> (k <= rint x)%Z.
Proof.
  intros Hx. unfold rint.
  destruct (base_Int_part x) as [Hlo Hhi].
  set (f := Int_part x) in *.
  assert (Hfk : (k < f + 1)%Z) by (apply lt_IZR; rewrite plus_IZR; lra).
  destruct (Rlt_dec (x - IZR f) (1 / 2)); [lia|].
  destruct (Rlt_dec (1 / 2) (x - IZR f)); [lia|].
  destruct (Z.even f); lia.
Qed.

Lemma rint_IZR (k : Z) : rint (IZR k) = k.
Proof.
  apply Z.le_antisymm; [apply rint_le | apply rint_ge]; lra.
Qed.

(** Rounding away a fractional part above one half goes up. *)
Lemma rint_up (x : R) (k : Z) :
  IZR k + 1 / 2 < x -> x < IZR k + 1 -> rint x = (k + 1)%Z.
Proof.
  intros Hlo Hhi. unfold rint.
  assert (Hf : Int_part x = k) by (symmetry; apply Int_part_spec; lra).
  rewrite Hf.
  destruct (Rlt_dec (x - IZR k) (1 / 2)); [lra|].
  destruct (Rlt_dec (1 / 2) (x - IZR k)); [reflexivity | lra].
Qed.

Lemma pow10_pos (n : nat) : 0 < 10 ^ n.
Proof. apply pow_lt. lra. Qed.

(** [round(x, n)] of a value in [0,1] is in [0,1]. *)
Lemma py_round_unit (x : R) (n : nat) :
  within 0 1 x -> within 0 1 (py_round x n).
Proof.
  intros [H0 H1]. pose proof (pow10_pos n) as Hp.
  unfold within, py_round.
  assert (Hk : 10 ^ n = IZR (10 ^ Z.of_nat n)).
  { rewrite <- pow_IZR. reflexivity. }
  assert (Hlo : (0 <= rint (x * 10 ^ n))%Z).
  { apply rint_ge. simpl. nra. }
  assert (Hhi : (rint (x * 10 ^ n) <= 10 ^ Z.of_nat n)%Z).
  { apply rint_le. rewrite <- Hk. nra. }
  apply IZR_le in Hlo, Hhi. rewrite <- Hk in Hhi. simpl in Hlo.
  split.
  - apply Rmult_le_reg_r with (10 ^ n); [exact Hp|].
    unfold Rdiv. rewrite Rmult_assoc, Rinv_l by lra. lra.
  - apply Rmult_le_reg_r with (10 ^ n); [exact Hp|].
    unfold Rdiv. rewrite Rmult_assoc, Rinv_l by lra. lra.
Qed.

Lemma py_round_up (x : R) (n : nat) (k : Z) :
  IZR k + 1 / 2 < x * 10 ^ n -> x * 10 ^ n < IZR k + 1 ->
  py_round x n = IZR (k + 1) / 10 ^ n.
Proof.
  intros Hlo Hhi. unfold py_round. rewrite (rint_up _ k Hlo Hhi). reflexivity.
Qed.

(** Rounding an exact multiple of [10 ^ -n] changes nothing. *)
Lemma py_round_exact (k : Z) (n : nat) (x : R) :
  x * 10 ^ n = IZR k -> py_round x n = x.
Proof.
  intros H. pose proof (pow10_pos n) as Hp.
  unfold py_round. rewrite H, rint_IZR, <- H. field. lra.
Qed.

End Primitives.

(** Decide the [min]s of a goal whose arguments are concrete. *)
Ltac eval_py_min :=
  repeat match goal with
         | |- context [py_min ?a ?b] =>
             first [ rewrite (py_min_l a b) by lra
                   | rewrite (py_min_r a b) by lra ]
         end.

(* ================================================================= *)
(** ** Lemmas on the scoring function *)

Section Scoring.

(** The divisions by the literals [100] and [10] cannot raise, so the
    normalisation always produces its three values. *)
Lemma normalize_ok (m : Metrics) :
  normalize m =
  Return {| volatility := py_min (volume_cv m * 10) 1;
            liquidity := 1 - py_min (volume_per_minute m / 100) 1;
            concentration := 1 - py_min (IZR (swap_count m) / 10) 1 |}.
Proof.
  unfold normalize. rewrite !truediv_ok by lra. reflexivity.
Qed.

Lemma compute_risk_score_ok (m : Metrics) (n : Normalized) :
  normalize m = Return n ->
  compute_risk_score (Some m) =
  Return (Assessment
            (build_result n (weighted_score n) (categorize (weighted_score n)))).
Proof.
  intros Hn. unfold compute_risk_score. rewrite Hn. reflexivity.
Qed.

Lemma weighted_score_eq (n : Normalized) :
  weighted_score n =
  100 * (volatility n * 0.35 + liquidity n * 0.30 + concentration n * 0.25).
Proof.
  unfold weighted_score, risk_weights. simpl. lra.
Qed.

Lemma normalize_unit (m : Metrics) (n : Normalized) :
  valid_metrics m -> normalize m = Return n ->
  within 0 1 (volatility n) /\ within 0 1 (liquidity n) /\
  within 0 1 (concentration n).
Proof.
  intros (Hcv & Hvpm & Hcount) Hn.
  rewrite normalize_ok in Hn. injection Hn as <-.
  apply IZR_le in Hcount. unfold within. simpl.
  pose proof (py_min_le_r (volume_cv m * 10) 1).
  pose proof (py_min_ge (volume_cv m * 10) 1 0).
  pose proof (py_min_le_r (volume_per_minute m / 100) 1).
  pose proof (py_min_ge (volume_per_minute m / 100) 1 0).
  pose proof (py_min_le_r (IZR (swap_count m) / 10) 1).
  pose proof (py_min_ge (IZR (swap_count m) / 10) 1 0).
  repeat split; lra.
Qed.

Lemma categorize_level (s : R) :
  (fst (categorize s) = LOW <-> s < 30) /\
  (fst (categorize s) = MEDIUM <-> 30 <= s < 70) /\
  (fst (categorize s) = HIGH <-> 70 <= s).
Proof.
  unfold categorize.
  destruct (Rlt_dec s 30); [|destruct (Rlt_dec s 70)]; simpl;
    repeat split; intros; try discriminate; try lra.
Qed.

End Scoring.

(** The four boundary cases of the categorisation. *)
Example categorize_boundaries :
  fst (categorize 29.999) = LOW /\ fst (categorize 30) = MEDIUM /\
  fst (categorize 69.999) = MEDIUM /\ fst (categorize 70) = HIGH.
Proof.
  repeat split; apply categorize_level; lra.
Qed.

(* ================================================================= *)
(** ** The score as a weighted sum *)

(** C1, as stated, fails.  With every normalized value saturated at 1
    (coefficient of variation 1, no volume, no swap) the score is 90 and
    not 100: the weights multiplied into the sum total 0.90, so the
    claim's "weights total 1.0" is false at this input, as at any other.
    And a metrics value the function accepts can carry a negative
    coefficient of variation, whose normalized volatility (-10) is
    outside [0,1]. *)
Lemma C1_weights_do_not_total_one :
  ~ full_weighted_sum (metrics_of 1 0 0) /\
  normalize (metrics_of 1 0 0) =
    Return {| volatility := 1; liquidity := 1; concentration := 1 |} /\
  weighted_score {| volatility := 1; liquidity := 1; concentration := 1 |} = 90 /\
  Rsum applied_weights = 0.9 /\
  ~ full_weighted_sum (metrics_of (-1) 0 0) /\
  exists n, normalize (metrics_of (-1) 0 0) = Return n /\ volatility n = -10.
Proof.
  assert (Hw : Rsum applied_weights = 0.9).
  { unfold applied_weights, risk_weights. simpl. lra. }
  repeat split.
  - intros (n & _ & _ & Hone & _). lra.
  - rewrite normalize_ok. unfold metrics_of, py_min. simpl.
    destruct (Rlt_dec 1 (1 * 10)); [|lra].
    destruct (Rlt_dec 1 (0 / 100)); [lra|].
    destruct (Rlt_dec 1 (0 / 10)); [lra|].
    f_equal. f_equal; lra.
  - rewrite weighted_score_eq. simpl. lra.
  - exact Hw.
  - intros (n & _ & _ & Hone & _). lra.
  - eexists. split; [apply normalize_ok|].
    unfold metrics_of, py_min. simpl.
    destruct (Rlt_dec 1 (-1 * 10)); lra.
Qed.

(** C1, amended.  For every valid metrics value the unrounded score is
    [100 * Σ normalized_i * weight_i] over the three applied factors,
    whose weights total 0.90 (the four weights of the table total 1.0,
    [time_decay] is not applied), and every normalized value is in
    [0,1]. *)
Theorem C1_score_is_weighted_sum (m : Metrics) :
  valid_metrics m ->
  exists n : Normalized,
    normalize m = Return n /\
    weighted_score n =
      100 * Rsum (map (fun p => fst p * snd p)
                      (combine [volatility n; liquidity n; concentration n]
                               applied_weights)) /\
    Rsum applied_weights = 0.9 /\
    Rsum table_weights = 1 /\
    within 0 1 (volatility n) /\ within 0 1 (liquidity n) /\
    within 0 1 (concentration n).
Proof.
  intros Hm. eexists. split; [apply normalize_ok|].
  pose proof (normalize_unit m _ Hm (normalize_ok m)) as Hu.
  split; [|split; [|split; [|exact Hu]]].
  - rewrite weighted_score_eq. unfold applied_weights, risk_weights. simpl. lra.
  - unfold applied_weights, risk_weights. simpl. lra.
  - unfold table_weights, applied_weights, risk_weights. simpl. lra.
Qed.

Lemma C1_score_is_weighted_sum_witness :
  valid_metrics (metrics_of 0 6 3) /\
  exists n : Normalized,
    normalize (metrics_of 0 6 3) = Return n /\
    weighted_score n =
      100 * Rsum (map (fun p => fst p * snd p)
                      (combine [volatility n; liquidity n; concentration n]
                               applied_weights)) /\
    Rsum applied_weights = 0.9 /\
    Rsum table_weights = 1 /\
    within 0 1 (volatility n) /\ within 0 1 (liquidity n) /\
    within 0 1 (concentration n).
Proof.
  assert (H : valid_metrics (metrics_of 0 6 3)).
  { unfold valid_metrics, metrics_of. simpl. repeat split; try lra; lia. }
  split; [exact H | apply (C1_score_is_weighted_sum _ H)].
Defined.

(* ================================================================= *)
(** ** Range of the score, categories, normalized values *)

(** C3.  For every metrics value the scoring succeeds and the level is
    read off the unrounded score: LOW exactly when it is below 30,
    MEDIUM exactly when it is at least 30 and below 70, HIGH exactly
    when it is at least 70; every score is in exactly one of the three
    ranges. *)
Theorem C3_category_partition (m : Metrics) :
  exists (n : Normalized) (r : RiskResult),
    normalize m = Return n /\
    compute_risk_score (Some m) = Return (Assessment r) /\
    (risk_level r = LOW <-> weighted_score n < 30) /\
    (risk_level r = MEDIUM <-> 30 <= weighted_score n < 70) /\
    (risk_level r = HIGH <-> 70 <= weighted_score n) /\
    (forall s : R,
       (s < 30 /\ ~ 30 <= s < 70 /\ ~ 70 <= s) \/
       (~ s < 30 /\ 30 <= s < 70 /\ ~ 70 <= s) \/
       (~ s < 30 /\ ~ 30 <= s < 70 /\ 70 <= s)).
Proof.
  do 2 eexists. split; [apply normalize_ok|].
  split; [apply compute_risk_score_ok, normalize_ok|].
  cbn [risk_level build_result].
  destruct (categorize_level
              (weighted_score
                 {| volatility := py_min (volume_cv m * 10) 1;
                    liquidity := 1 - py_min (volume_per_minute m / 100) 1;
                    concentration := 1 - py_min (IZR (swap_count m) / 10) 1 |}))
    as (HL & HM & HH).
  split; [exact HL|]. split; [exact HM|]. split; [exact HH|].
  intros s.
  destruct (Rlt_dec s 30); [left; lra|].
  destruct (Rlt_dec s 70); [right; left; lra | right; right; lra].
Qed.

(** C4.  For every valid metrics value, however extreme, the three
    normalized values are in [0,1], and so are the rounded values the
    result reports. *)
Theorem C4_normalized_in_unit_interval (m : Metrics) :
  valid_metrics m ->
  exists (n : Normalized) (r : RiskResult),
    normalize m = Return n /\
    compute_risk_score (Some m) = Return (Assessment r) /\
    within 0 1 (volatility n) /\ within 0 1 (liquidity n) /\
    within 0 1 (concentration n) /\
    within 0 1 (volatility (normalized_metrics r)) /\
    within 0 1 (liquidity (normalized_metrics r)) /\
    within 0 1 (concentration (normalized_metrics r)).
Proof.
  intros Hm. do 2 eexists. split; [apply normalize_ok|].
  split; [apply compute_risk_score_ok, normalize_ok|].
  destruct (normalize_unit m _ Hm (normalize_ok m)) as (Hv & Hl & Hc).
  cbn [normalized_metrics build_result volatility liquidity concentration] in *.
  repeat split; try apply Hv; try apply Hl; try apply Hc;
    apply py_round_unit; assumption.
Qed.

Lemma C4_normalized_in_unit_interval_witness :
  valid_metrics (metrics_of 1000 100000 5000) /\
  exists (n : Normalized) (r : RiskResult),
    normalize (metrics_of 1000 100000 5000) = Return n /\
    compute_risk_score (Some (metrics_of 1000 100000 5000)) =
      Return (Assessment r) /\
    within 0 1 (volatility n) /\ within 0 1 (liquidity n) /\
    within 0 1 (concentration n) /\
    within 0 1 (volatility (normalized_metrics r)) /\
    within 0 1 (liquidity (normalized_metrics r)) /\
    within 0 1 (concentration (normalized_metrics r)).
Proof.
  assert (H : valid_metrics (metrics_of 1000 100000 5000)).
  { unfold valid_metrics, metrics_of. simpl. repeat split; try lra; lia. }
  split; [exact H | apply (C4_normalized_in_unit_interval _ H)].
Defined.

(** C6.  Without metrics the scoring returns the error value
    [{"error": "No metrics available"}] and raises nothing; with
    metrics it always returns an assessment, so the missing metrics are
    its only failure. *)
Theorem C6_no_metrics_error :
  compute_risk_score None = Return (ErrorResult "No metrics available") /\
  (forall m : Metrics,
     exists r : RiskResult,
       compute_risk_score (Some m) = Return (Assessment r)) /\
  (forall (metrics : option Metrics) (e : exn),
     compute_risk_score metrics <> Raise e).
Proof.
  split; [reflexivity|]. split.
  - intros m. eexists. apply compute_risk_score_ok, normalize_ok.
  - intros [m|] e; [|discriminate].
    rewrite (compute_risk_score_ok m _ (normalize_ok m)). discriminate.
Qed.

(* ================================================================= *)
(** ** The reported score is rounded, the level is not *)

(** C10.  In every successful result [risk_score] is the final score
    rounded to 2 decimals and [risk_level] is the level of the unrounded
    score.  So there is a valid metrics value whose unrounded score
    (29.996) is below 30 and whose result pairs [risk_score = 30] with
    LOW, and one whose unrounded score (69.996) is below 70 and whose
    result pairs [risk_score = 70] with MEDIUM; read off the reported
    score, the thresholds would give MEDIUM and HIGH. *)
Theorem C10_rounded_score_unrounded_level :
  (forall m : Metrics,
     exists (n : Normalized) (r : RiskResult),
       normalize m = Return n /\
       compute_risk_score (Some m) = Return (Assessment r) /\
       risk_score r = py_round (weighted_score n) 2 /\
       risk_level r = fst (categorize (weighted_score n))) /\
  (exists (m : Metrics) (n : Normalized) (r : RiskResult),
     valid_metrics m /\
     normalize m = Return n /\
     compute_risk_score (Some m) = Return (Assessment r) /\
     weighted_score n = 29.996 /\
     risk_score r = 30 /\ risk_level r = LOW /\
     fst (categorize (risk_score r)) = MEDIUM) /\
  (exists (m : Metrics) (n : Normalized) (r : RiskResult),
     valid_metrics m /\
     normalize m = Return n /\
     compute_risk_score (Some m) = Return (Assessment r) /\
     weighted_score n = 69.996 /\
     risk_score r = 70 /\ risk_level r = MEDIUM /\
     fst (categorize (risk_score r)) = HIGH).
Proof.
  assert (Hr30 : py_round 29.996 2 = 30).
  { rewrite (py_round_up _ 2 2999) by (simpl; lra). simpl. lra. }
  assert (Hr70 : py_round 69.996 2 = 70).
  { rewrite (py_round_up _ 2 6999) by (simpl; lra). simpl. lra. }
  split; [|split].
  - intros m. do 2 eexists. split; [apply normalize_ok|].
    split; [apply compute_risk_score_ok, normalize_ok|].
    split; reflexivity.
  - exists (metrics_of (7499 / 87500) 100 10). do 2 eexists.
    split; [|split; [apply normalize_ok|
             split; [apply compute_risk_score_ok, normalize_ok|]]].
    + unfold valid_metrics, metrics_of. simpl. repeat split; try lra; lia.
    + cbn [risk_score risk_level build_result].
      match goal with |- ?s = _ /\ _ =>
        assert (Hs : s = 29.996)
      end.
      { rewrite weighted_score_eq. unfold metrics_of. simpl.
        eval_py_min. lra. }
      rewrite Hs, Hr30.
      repeat split; try reflexivity; apply categorize_level; lra.
  - exists (metrics_of 1 66.68 0). do 2 eexists.
    split; [|split; [apply normalize_ok|
             split; [apply compute_risk_score_ok, normalize_ok|]]].
    + unfold valid_metrics, metrics_of. simpl. repeat split; try lra; lia.
    + cbn [risk_score risk_level build_result].
      match goal with |- ?s = _ /\ _ =>
        assert (Hs : s = 69.996)
      end.
      { rewrite weighted_score_eq. unfold metrics_of. simpl.
        eval_py_min. lra. }
      rewrite Hs, Hr70.
      repeat split; try reflexivity; apply categorize_level; lra.
Qed.

(* ================================================================= *)
(** ** The metrics *)

Section MetricsLemmas.

Lemma get_Some_truthy {V : Type} (d : dict V) (k : string) (v : V) :
  get d k = Some v -> truthy d = true.
Proof. destruct d; [discriminate | reflexivity]. Qed.

(** With at least two swap records the function returns the metrics
    below, raising nothing. *)
Lemma calculate_basic_metrics_ok (d : SwapData) (swaps : list SwapRecord) :
  get d "processed_events" = Some swaps ->
  (2 <= length swaps)%nat ->
  let eth_amounts := map eth_amount swaps in
  calculate_basic_metrics (Some d) =
  Return (Some {| total_volume_eth := Rsum eth_amounts;
                  avg_volume_eth := mean_of eth_amounts;
                  volume_std_eth := population_std eth_amounts;
                  volume_cv :=
                    if Rlt_dec 0 (mean_of eth_amounts)
                    then population_std eth_amounts / mean_of eth_amounts
                    else 0;
                  swap_count := Z.of_nat (length swaps);
                  time_range_minutes := 5;
                  volume_per_minute := Rsum eth_amounts / 5 |}).
Proof.
  intros Hget Hlen eth_amounts.
  assert (Hn : (1 <= length eth_amounts)%nat).
  { unfold eth_amounts. rewrite length_map. lia. }
  unfold calculate_basic_metrics, contains, getitem.
  rewrite (get_Some_truthy _ _ _ Hget), Hget. cbn [negb orb bind].
  destruct (Nat.ltb_spec (length swaps) 2) as [|_]; [lia|].
  fold eth_amounts.
  rewrite (np_mean_ok _ Hn). cbn [bind].
  destruct (Nat.ltb_spec 1 (length eth_amounts)) as [_|Hle];
    [|unfold eth_amounts in Hle; rewrite length_map in Hle; lia].
  rewrite (np_std_ok _ Hn). cbn [bind].
  rewrite py_sum_Rsum, (truediv_ok _ (IZR 5)) by lra. 
  destruct (Rlt_dec 0 (mean_of eth_amounts)) as [Hpos|Hnpos].
  - rewrite truediv_ok by lra. reflexivity.
  - reflexivity.
Qed.

(** Without a swap-record sequence, or with fewer than two records,
    the function returns [None]. *)
Lemma calculate_basic_metrics_none (swap_data : option SwapData) :
  swap_records swap_data = None \/
  (exists swaps, swap_records swap_data = Some swaps /\ (length swaps < 2)%nat) ->
  calculate_basic_metrics swap_data = Return None.
Proof.
  destruct swap_data as [d|]; [|reflexivity].
  unfold swap_records, calculate_basic_metrics, contains, getitem.
  intros [Hnone | (swaps & Hsome & Hlen)].
  - rewrite Hnone. rewrite orb_true_r. reflexivity.
  - rewrite Hsome, (get_Some_truthy _ _ _ Hsome). cbn [negb orb bind].
    destruct (Nat.ltb_spec (length swaps) 2); [reflexivity | lia].
Qed.

(** Metrics computed from non-negative amounts are valid, so what is
    proved of the score for valid metrics holds along the pipeline. *)
Lemma calculate_basic_metrics_valid (d : SwapData) (swaps : list SwapRecord) :
  get d "processed_events" = Some swaps ->
  (2 <= length swaps)%nat ->
  Forall (fun s => 0 <= eth_amount s) swaps ->
  exists m : Metrics,
    calculate_basic_metrics (Some d) = Return (Some m) /\ valid_metrics m.
Proof.
  intros Hget Hlen Hpos. eexists.
  split; [apply (calculate_basic_metrics_ok d swaps Hget Hlen)|].
  assert (Hsum : 0 <= Rsum (map eth_amount swaps)).
  { apply Rsum_nonneg. apply Forall_forall. intros x Hx.
    apply in_map_iff in Hx as (s & <- & Hs).
    revert s Hs. apply Forall_forall. exact Hpos. }
  unfold valid_metrics.
  cbn [volume_cv volume_per_minute swap_count].
  split; [|split; [lra | lia]].
  destruct (Rlt_dec 0 (mean_of (map eth_amount swaps))) as [Hm|_]; [|lra].
  apply Rmult_le_pos; [apply population_std_nonneg|].
  left. apply Rinv_0_lt_compat. exact Hm.
Qed.

End MetricsLemmas.

(** C5.  When the input has no swap-record sequence (it is [None], an
    empty dict, or a dict without ['processed_events']) or the sequence
    has fewer than 2 records, [calculate_basic_metrics] returns [None]:
    no metrics value, and no exception. *)
Theorem C5_insufficient_data_returns_none (swap_data : option SwapData) :
  swap_records swap_data = None \/
  (exists swaps, swap_records swap_data = Some swaps /\ (length swaps < 2)%nat) ->
  calculate_basic_metrics swap_data = Return None /\
  (forall m : Metrics, calculate_basic_metrics swap_data <> Return (Some m)).
Proof.
  intros H. rewrite (calculate_basic_metrics_none _ H).
  split; [reflexivity | discriminate].
Qed.

Lemma C5_insufficient_data_returns_none_witness :
  calculate_basic_metrics (Some (data_of [5])) = Return None /\
  calculate_basic_metrics None = Return None /\
  calculate_basic_metrics (Some []) = Return None.
Proof.
  split; [|split].
  - apply (C5_insufficient_data_returns_none (Some (data_of [5]))).
    right. exists (swaps_of [5]). split; [reflexivity | simpl; lia].
  - apply (C5_insufficient_data_returns_none None). left. reflexivity.
  - apply (C5_insufficient_data_returns_none (Some [])). left. reflexivity.
Defined.

(** The population formula is not the sample-corrected one: on the two
    amounts 0 and 2 the first gives 1 and the second the square root
    of 2. *)
Example population_std_is_not_sample_std :
  population_std [0; 2] = 1 /\ sample_std [0; 2] = sqrt 2 /\
  population_std [0; 2] <> sample_std [0; 2].
Proof.
  assert (Hp : population_std [0; 2] = 1).
  { unfold population_std, mean_of. simpl.
    replace ((0 - (0 + (2 + 0)) / (1 + 1)) * ((0 - (0 + (2 + 0)) / (1 + 1)) * 1) +
             ((2 - (0 + (2 + 0)) / (1 + 1)) * ((2 - (0 + (2 + 0)) / (1 + 1)) * 1) + 0))
      with 2 by field.
    replace (2 / (1 + 1)) with 1 by field. apply sqrt_1. }
  assert (Hs : sample_std [0; 2] = sqrt 2).
  { unfold sample_std, mean_of. simpl. f_equal. field. }
  split; [exact Hp|]. split; [exact Hs|].
  rewrite Hp, Hs. intros Heq.
  assert (H2 : sqrt 2 * sqrt 2 = 2) by (apply sqrt_def; lra).
  rewrite <- Heq in H2. lra.
Qed.

(** C7.  For at least 2 swap records with non-negative amounts,
    [calculate_basic_metrics] returns metrics whose total is the sum of
    the amounts, whose average is the total over the count, and whose
    standard deviation is the population one and is non-negative. *)
Theorem C7_total_mean_std (d : SwapData) (swaps : list SwapRecord) :
  get d "processed_events" = Some swaps ->
  (2 <= length swaps)%nat ->
  Forall (fun s => 0 <= eth_amount s) swaps ->
  exists m : Metrics,
    calculate_basic_metrics (Some d) = Return (Some m) /\
    total_volume_eth m = Rsum (map eth_amount swaps) /\
    avg_volume_eth m = total_volume_eth m / IZR (swap_count m) /\
    swap_count m = Z.of_nat (length swaps) /\
    volume_std_eth m = population_std (map eth_amount swaps) /\
    0 <= volume_std_eth m.
Proof.
  intros Hget Hlen _. eexists.
  split; [apply (calculate_basic_metrics_ok d swaps Hget Hlen)|].
  cbn [total_volume_eth avg_volume_eth swap_count volume_std_eth].
  repeat split.
  - unfold mean_of. rewrite length_map, INR_IZR_INZ. reflexivity.
  - apply population_std_nonneg.
Qed.

Lemma C7_total_mean_std_witness :
  exists m : Metrics,
    calculate_basic_metrics (Some (data_of [1; 3])) = Return (Some m) /\
    total_volume_eth m = Rsum (map eth_amount (swaps_of [1; 3])) /\
    avg_volume_eth m = total_volume_eth m / IZR (swap_count m) /\
    swap_count m = Z.of_nat (length (swaps_of [1; 3])) /\
    volume_std_eth m = population_std (map eth_amount (swaps_of [1; 3])) /\
    0 <= volume_std_eth m.
Proof.
  apply (C7_total_mean_std (data_of [1; 3]) (swaps_of [1; 3])).
  - reflexivity.
  - simpl. lia.
  - repeat constructor; simpl; lra.
Defined.



(* ================================================================= *)
(** ** The end-to-end example *)

(** C8.  For three swaps of 10 ETH each (the window is the fixed 5
    minutes) the pipeline returns the metrics with mean 10, standard
    deviation 0, coefficient of variation 0 and 6 ETH per minute, the
    normalized values 0, 0.94 and 0.7, the score 45.7 (unrounded and as
    reported) and the level MEDIUM. *)
Theorem C8_end_to_end_example :
  pipeline (Some (data_of [10; 10; 10])) =
    Return (Some (example_metrics, Assessment example_result)) /\
  normalize example_metrics = Return example_normalized /\
  weighted_score example_normalized = 45.7.
Proof.
  assert (Hsum : Rsum (map eth_amount (swaps_of [10; 10; 10])) = 30).
  { simpl. lra. }
  assert (Hmean : mean_of (map eth_amount (swaps_of [10; 10; 10])) = 10).
  { unfold mean_of. rewrite Hsum. simpl. lra. }
  assert (Hstd : population_std (map eth_amount (swaps_of [10; 10; 10])) = 0).
  { unfold population_std. rewrite Hmean. simpl.
    match goal with |- sqrt ?a = 0 => replace a with 0 by lra end.
    apply sqrt_0. }
  assert (Hmetrics : calculate_basic_metrics (Some (data_of [10; 10; 10])) =
                     Return (Some example_metrics)).
  { rewrite (calculate_basic_metrics_ok
               (data_of [10; 10; 10]) (swaps_of [10; 10; 10]) eq_refl)
      by (simpl; lia).
    cbv zeta. rewrite Hsum, Hmean, Hstd.
    destruct (Rlt_dec 0 10); [|lra].
    unfold example_metrics. do 2 f_equal.
    f_equal; simpl; lra. }
  assert (Hnorm : normalize example_metrics = Return example_normalized).
  { rewrite normalize_ok. unfold example_metrics, example_normalized. simpl.
    eval_py_min. f_equal. f_equal; lra. }
  assert (Hscore : weighted_score example_normalized = 45.7).
  { rewrite weighted_score_eq. simpl. lra. }
  split; [|split; [exact Hnorm | exact Hscore]].
  unfold pipeline. rewrite Hmetrics. cbn [bind].
  rewrite (compute_risk_score_ok _ _ Hnorm). cbn [bind].
  do 4 f_equal. unfold build_result, example_result. rewrite Hscore.
  assert (Hlevel : categorize 45.7 = (MEDIUM, Yellow)).
  { unfold categorize.
    destruct (Rlt_dec 45.7 30); [lra|].
    destruct (Rlt_dec 45.7 70); [reflexivity | lra]. }
  rewrite Hlevel. cbn [fst snd volatility liquidity concentration
                       example_normalized].
  unfold risk_weights. cbn [volume_volatility liquidity_depth concentration_risk].
  rewrite (py_round_exact 4570 2 45.7) by (simpl; lra).
  rewrite (py_round_exact 0 2 (0 * 0.35 * 100)) by (simpl; lra).
  rewrite (py_round_exact 2820 2 (0.94 * 0.30 * 100)) by (simpl; lra).
  rewrite (py_round_exact 1750 2 (0.7 * 0.25 * 100)) by (simpl; lra).
  rewrite (py_round_exact 0 3 0) by (simpl; lra).
  rewrite (py_round_exact 940 3 0.94) by (simpl; lra).
  rewrite (py_round_exact 700 3 0.7) by (simpl; lra).
  f_equal. f_equal; lra.
Qed.

(* ================================================================= *)
(** ** Further properties of the score *)

Section MoreOnPrimitives.

Lemma py_min_mono (a a' b : R) : a <= a' -> py_min a b <= py_min a' b.
Proof.
  intros H. unfold py_min.
  destruct (Rlt_dec b a), (Rlt_dec b a'); lra.
Qed.

(** Rounding to the nearest integer moves by at most one half. *)
Lemma rint_close (y : R) : - (1 / 2) <= IZR (rint y) - y <= 1 / 2.
Proof.
  unfold rint. destruct (base_Int_part y) as [Hlo Hhi].
  set (f := Int_part y) in *.
  destruct (Rlt_dec (y - IZR f) (1 / 2)) as [Hd|Hd].
  - lra.
  - destruct (Rlt_dec (1 / 2) (y - IZR f)) as [Hd'|Hd'].
    + rewrite plus_IZR. lra.
    + destruct (Z.even f); [|rewrite plus_IZR]; lra.
Qed.

Lemma rint_mono (x y : R) : x <= y -> (rint x <= rint y)%Z.
Proof.
  intros Hxy.
  destruct (base_Int_part x) as [Hxlo Hxhi].
  destruct (base_Int_part y) as [Hylo Hyhi].
  assert (Hf : (Int_part x <= Int_part y)%Z).
  { apply Z.lt_succ_r. apply lt_IZR. rewrite succ_IZR. lra. }
  apply Zle_lt_or_eq in Hf as [Hlt|Heq].
  - apply Z.le_trans with (Int_part x + 1)%Z.
    + apply rint_le. rewrite plus_IZR. lra.
    + apply Z.le_trans with (Int_part y); [lia|]. apply rint_ge. lra.
  - unfold rint. rewrite <- Heq.
    set (f := Int_part x) in *.
    assert (Hy : y - IZR (Int_part y) = y - IZR f) by (rewrite <- Heq; reflexivity).
    destruct (Rlt_dec (x - IZR f) (1 / 2)),
             (Rlt_dec (y - IZR f) (1 / 2)); try lia; try lra.
    + destruct (Rlt_dec (1 / 2) (y - IZR f)); [lia|]. destruct (Z.even f); lia.
    + destruct (Rlt_dec (1 / 2) (x - IZR f)), (Rlt_dec (1 / 2) (y - IZR f));
        try lia; try lra.
      destruct (Z.even f); lia.
Qed.

Lemma py_round_mono (x y : R) (n : nat) :
  x <= y -> py_round x n <= py_round y n.
Proof.
  intros Hxy. pose proof (pow10_pos n) as Hp. unfold py_round.
  assert (H : (rint (x * 10 ^ n) <= rint (y * 10 ^ n))%Z).
  { apply rint_mono. nra. }
  apply IZR_le in H. unfold Rdiv.
  apply Rmult_le_compat_r; [|exact H].
  left. apply Rinv_0_lt_compat. exact Hp.
Qed.

(** [round(x, n)] is within half a unit of the last place of [x]. *)
Lemma py_round_close (x : R) (n : nat) :
  Rabs (py_round x n - x) <= 1 / 2 / 10 ^ n.
Proof.
  pose proof (pow10_pos n) as Hp. unfold py_round.
  pose proof (rint_close (x * 10 ^ n)) as Hc.
  assert (Hi : 0 < / 10 ^ n) by (apply Rinv_0_lt_compat; exact Hp).
  assert (Hx : IZR (rint (x * 10 ^ n)) / 10 ^ n - x =
               (IZR (rint (x * 10 ^ n)) - x * 10 ^ n) * / 10 ^ n)
    by (field; lra).
  rewrite Hx. unfold Rdiv in *.
  set (e := IZR (rint (x * 10 ^ n)) - x * 10 ^ n) in *.
  apply Rabs_le. split; nra.
Qed.

Lemma Rabs_le_inv (a b : R) : Rabs a <= b -> - b <= a <= b.
Proof.
  unfold Rabs. destruct (Rcase_abs a); lra.
Qed.

End MoreOnPrimitives.

Section MoreOnScoring.

Lemma categorize_mono (s1 s2 : R) :
  s1 <= s2 ->
  (level_rank (fst (categorize s1)) <= level_rank (fst (categorize s2)))%nat.
Proof.
  intros H. unfold categorize.
  destruct (Rlt_dec s1 30), (Rlt_dec s2 30), (Rlt_dec s1 70), (Rlt_dec s2 70);
    simpl; try lia; lra.
Qed.



(** Rounding keeps a value between two bounds that are themselves
    multiples of the last place. *)
Lemma py_round_within (x lo hi : R) (klo khi : Z) (n : nat) :
  lo * 10 ^ n = IZR klo -> hi * 10 ^ n = IZR khi ->
  within lo hi x -> within lo hi (py_round x n).
Proof.
  intros Hlo Hhi [H1 H2]. split.
  - apply Rle_trans with (py_round lo n); [|apply py_round_mono, H1].
    rewrite (py_round_exact klo n lo Hlo). lra.
  - apply Rle_trans with (py_round hi n); [apply py_round_mono, H2|].
    rewrite (py_round_exact khi n hi Hhi). lra.
Qed.

End MoreOnScoring.

(** The score never decreases when the volatility rises, the volume per
    minute falls and the number of swaps falls; neither do the reported
    score and the level. *)
Theorem score_monotone (m1 m2 : Metrics) :
  volume_cv m1 <= volume_cv m2 ->
  volume_per_minute m2 <= volume_per_minute m1 ->
  (swap_count m2 <= swap_count m1)%Z ->
  exists (n1 n2 : Normalized) (r1 r2 : RiskResult),
    normalize m1 = Return n1 /\ normalize m2 = Return n2 /\
    compute_risk_score (Some m1) = Return (Assessment r1) /\
    compute_risk_score (Some m2) = Return (Assessment r2) /\
    weighted_score n1 <= weighted_score n2 /\
    risk_score r1 <= risk_score r2 /\
    (level_rank (risk_level r1) <= level_rank (risk_level r2))%nat.
Proof.
  intros Hcv Hvpm Hcount. apply IZR_le in Hcount.
  do 4 eexists.
  split; [apply normalize_ok|]. split; [apply normalize_ok|].
  split; [apply compute_risk_score_ok, normalize_ok|].
  split; [apply compute_risk_score_ok, normalize_ok|].
  match goal with |- ?s1 <= ?s2 /\ _ => assert (Hs : s1 <= s2) end.
  { rewrite !weighted_score_eq. cbn [volatility liquidity concentration].
    pose proof (py_min_mono (volume_cv m1 * 10) (volume_cv m2 * 10) 1).
    pose proof (py_min_mono (volume_per_minute m2 / 100)
                            (volume_per_minute m1 / 100) 1).
    pose proof (py_min_mono (IZR (swap_count m2) / 10)
                            (IZR (swap_count m1) / 10) 1).
    lra. }
  split; [exact Hs|].
  cbn [risk_score risk_level build_result].
  split; [apply py_round_mono, Hs | apply categorize_mono, Hs].
Qed.

Lemma score_monotone_witness :
  exists (n1 n2 : Normalized) (r1 r2 : RiskResult),
    normalize (metrics_of 0 6 3) = Return n1 /\
    normalize (metrics_of 1 2 2) = Return n2 /\
    compute_risk_score (Some (metrics_of 0 6 3)) = Return (Assessment r1) /\
    compute_risk_score (Some (metrics_of 1 2 2)) = Return (Assessment r2) /\
    weighted_score n1 <= weighted_score n2 /\
    risk_score r1 <= risk_score r2 /\
    (level_rank (risk_level r1) <= level_rank (risk_level r2))%nat.
Proof.
  apply (score_monotone (metrics_of 0 6 3) (metrics_of 1 2 2));
    unfold metrics_of; simpl; try lra; lia.
Defined.

(** Each normalized value is linear up to its calibration ceiling
    (coefficient of variation 0.1, 100 ETH per minute, 10 swaps) and
    constant from there on: volatility 1, liquidity 0, concentration 0. *)
Theorem normalization_saturates (m : Metrics) :
  exists n : Normalized,
    normalize m = Return n /\
    (0.1 <= volume_cv m -> volatility n = 1) /\
    (volume_cv m <= 0.1 -> volatility n = volume_cv m * 10) /\
    (100 <= volume_per_minute m -> liquidity n = 0) /\
    (volume_per_minute m <= 100 ->
       liquidity n = 1 - volume_per_minute m / 100) /\
    ((10 <= swap_count m)%Z -> concentration n = 0) /\
    ((swap_count m <= 10)%Z ->
       concentration n = 1 - IZR (swap_count m) / 10).
Proof.
  eexists. split; [apply normalize_ok|].
  cbn [volatility liquidity concentration]. unfold py_min.
  repeat split; intros H; try apply IZR_le in H;
    match goal with
    | |- context [Rlt_dec ?a ?b] => destruct (Rlt_dec a b); lra
    end.
Qed.

Lemma normalization_saturates_witness :
  exists n : Normalized,
    normalize (metrics_of 1000 250 40) = Return n /\
    volatility n = 1 /\ liquidity n = 0 /\ concentration n = 0.
Proof.
  destruct (normalization_saturates (metrics_of 1000 250 40))
    as (n & Hn & Hv & _ & Hl & _ & Hc & _).
  exists n. split; [exact Hn|].
  split; [apply Hv; simpl; lra|].
  split; [apply Hl; simpl; lra | apply Hc; simpl; lia].
Defined.



(** For valid metrics the reported score is between 0 and 90, and the
    three reported contributions are between 0 and their weight times
    100: 35, 30 and 25. *)
Theorem reported_score_range (m : Metrics) :
  valid_metrics m ->
  exists r : RiskResult,
    compute_risk_score (Some m) = Return (Assessment r) /\
    within 0 90 (risk_score r) /\
    within 0 35 (volatility_contrib (components r)) /\
    within 0 30 (liquidity_contrib (components r)) /\
    within 0 25 (concentration_contrib (components r)).
Proof.
  intros Hm. eexists.
  split; [apply compute_risk_score_ok, normalize_ok|].
  destruct (normalize_unit m _ Hm (normalize_ok m)) as ([Hv0 Hv1] & [Hl0 Hl1] & [Hc0 Hc1]).
  cbn [risk_score components build_result volatility_contrib liquidity_contrib
       concentration_contrib].
  rewrite weighted_score_eq.
  cbn [volatility liquidity concentration] in *.
  unfold risk_weights. cbn [volume_volatility liquidity_depth concentration_risk].
  split; [|split; [|split]].
  - apply (py_round_within _ 0 90 0 9000); [simpl; lra | simpl; lra|].
    unfold within. lra.
  - apply (py_round_within _ 0 35 0 3500); [simpl; lra | simpl; lra|].
    unfold within. lra.
  - apply (py_round_within _ 0 30 0 3000); [simpl; lra | simpl; lra|].
    unfold within. lra.
  - apply (py_round_within _ 0 25 0 2500); [simpl; lra | simpl; lra|].
    unfold within. lra.
Qed.

Lemma reported_score_range_witness :
  exists r : RiskResult,
    compute_risk_score (Some (metrics_of 1000 0 0)) = Return (Assessment r) /\
    within 0 90 (risk_score r) /\
    within 0 35 (volatility_contrib (components r)) /\
    within 0 30 (liquidity_contrib (components r)) /\
    within 0 25 (concentration_contrib (components r)).
Proof.
  apply (reported_score_range (metrics_of 1000 0 0)).
  unfold valid_metrics, metrics_of. simpl. repeat split; try lra; lia.
Defined.




(* ================================================================= *)
(** ** Further properties of the metrics *)

Section MoreOnMetrics.

Lemma eth_amount_swaps_of (a : list R) : map eth_amount (swaps_of a) = a.
Proof.
  unfold swaps_of. rewrite map_map. simpl. apply map_id.
Qed.

Lemma length_swaps_of (a : list R) : length (swaps_of a) = length a.
Proof. unfold swaps_of. apply length_map. Qed.

(** The metrics of the data that holds swaps of the given amounts. *)
Lemma calculate_basic_metrics_amounts (a : list R) :
  (2 <= length a)%nat ->
  calculate_basic_metrics (Some (data_of a)) =
  Return (Some {| total_volume_eth := Rsum a;
                  avg_volume_eth := mean_of a;
                  volume_std_eth := population_std a;
                  volume_cv := if Rlt_dec 0 (mean_of a)
                               then population_std a / mean_of a else 0;
                  swap_count := Z.of_nat (length a);
                  time_range_minutes := 5;
                  volume_per_minute := Rsum a / 5 |}).
Proof.
  intros Hlen.
  rewrite (calculate_basic_metrics_ok (data_of a) (swaps_of a) eq_refl)
    by (rewrite length_swaps_of; exact Hlen).
  cbv zeta. rewrite eth_amount_swaps_of, length_swaps_of. reflexivity.
Qed.

(** Whenever metrics are returned, they are the ones of a sequence of
    at least two swaps. *)
Lemma calculate_basic_metrics_inv (swap_data : option SwapData) (m : Metrics) :
  calculate_basic_metrics swap_data = Return (Some m) ->
  exists swaps : list SwapRecord,
    swap_records swap_data = Some swaps /\ (2 <= length swaps)%nat /\
    m = {| total_volume_eth := Rsum (map eth_amount swaps);
           avg_volume_eth := mean_of (map eth_amount swaps);
           volume_std_eth := population_std (map eth_amount swaps);
           volume_cv :=
             if Rlt_dec 0 (mean_of (map eth_amount swaps))
             then population_std (map eth_amount swaps) /
                  mean_of (map eth_amount swaps)
             else 0;
           swap_count := Z.of_nat (length swaps);
           time_range_minutes := 5;
           volume_per_minute := Rsum (map eth_amount swaps) / 5 |}.
Proof.
  intros H.
  destruct (swap_records swap_data) as [swaps|] eqn:Hrec.
  - destruct (Nat.lt_ge_cases (length swaps) 2) as [Hlt|Hge].
    + rewrite calculate_basic_metrics_none in H
        by (right; exists swaps; auto).
      discriminate.
    + destruct swap_data as [d|]; [|discriminate]. simpl in Hrec.
      rewrite (calculate_basic_metrics_ok d swaps Hrec Hge) in H.
      cbv zeta in H. injection H as <-.
      exists swaps. repeat split. exact Hge.
  - rewrite calculate_basic_metrics_none in H by (left; exact Hrec).
    discriminate.
Qed.

End MoreOnMetrics.

(** Whatever the input, returned metrics count at least 2 swaps over
    the fixed 5 minutes, their volume per minute is what the division of
    the total by the minutes returns, and their standard deviation and
    coefficient of variation are non-negative, also when amounts are
    negative. *)
Theorem metrics_invariants (swap_data : option SwapData) (m : Metrics) :
  calculate_basic_metrics swap_data = Return (Some m) ->
  (2 <= swap_count m)%Z /\
  time_range_minutes m = 5%Z /\
  truediv (total_volume_eth m) (IZR (time_range_minutes m)) =
    Return (volume_per_minute m) /\
  0 <= volume_std_eth m /\
  0 <= volume_cv m.
Proof.
  intros H.
  destruct (calculate_basic_metrics_inv _ _ H) as (swaps & _ & Hlen & ->).
  cbn [swap_count time_range_minutes volume_per_minute total_volume_eth
       volume_std_eth volume_cv].
  set (a := map eth_amount swaps).
  pose proof (population_std_nonneg a) as Hstd.
  split; [lia|]. split; [reflexivity|].
  split; [apply truediv_ok; lra|].
  split; [exact Hstd|].
  destruct (Rlt_dec 0 (mean_of a)) as [Hpos|Hnpos]; [|lra].
  apply Rmult_le_pos; [exact Hstd|]. left. apply Rinv_0_lt_compat, Hpos.
Qed.

Lemma metrics_invariants_witness :
  exists m : Metrics,
    calculate_basic_metrics (Some (data_of [-4; 1])) = Return (Some m) /\
    (2 <= swap_count m)%Z /\
    time_range_minutes m = 5%Z /\
    truediv (total_volume_eth m) (IZR (time_range_minutes m)) =
      Return (volume_per_minute m) /\
    0 <= volume_std_eth m /\
    0 <= volume_cv m.
Proof.
  pose proof (calculate_basic_metrics_amounts [-4; 1] (le_n 2)) as Hm.
  eexists. split; [exact Hm|].
  exact (metrics_invariants _ _ Hm).
Defined.

(* ================================================================= *)
(** ** Metrics and score together *)

(** Along the pipeline the input has at least 2 swaps, so with
    non-negative amounts the normalized concentration is at most 0.8 and
    the score, unrounded and reported, is between 0 and 85. *)
Theorem pipeline_score_at_most_85 (d : SwapData) (swaps : list SwapRecord) :
  get d "processed_events" = Some swaps ->
  (2 <= length swaps)%nat ->
  Forall (fun s => 0 <= eth_amount s) swaps ->
  exists (m : Metrics) (n : Normalized) (r : RiskResult),
    pipeline (Some d) = Return (Some (m, Assessment r)) /\
    valid_metrics m /\
    normalize m = Return n /\
    concentration n <= 0.8 /\
    within 0 85 (weighted_score n) /\
    within 0 85 (risk_score r).
Proof.
  intros Hget Hlen Hpos.
  destruct (calculate_basic_metrics_valid d swaps Hget Hlen Hpos)
    as (m & Hm & Hvalid).
  assert (Hcount : (2 <= swap_count m)%Z).
  { destruct (calculate_basic_metrics_inv _ _ Hm) as (s0 & _ & Hl0 & ->).
    simpl. lia. }
  exists m. do 2 eexists.
  split.
  { unfold pipeline. rewrite Hm. cbn [bind].
    rewrite (compute_risk_score_ok m _ (normalize_ok m)). reflexivity. }
  split; [exact Hvalid|]. split; [apply normalize_ok|].
  destruct (normalize_unit m _ Hvalid (normalize_ok m))
    as ([Hv0 Hv1] & [Hl0 Hl1] & [Hc0 Hc1]).
  cbn [risk_score build_result].
  assert (Hconc : concentration
                    {| volatility := py_min (volume_cv m * 10) 1;
                       liquidity := 1 - py_min (volume_per_minute m / 100) 1;
                       concentration := 1 - py_min (IZR (swap_count m) / 10) 1 |}
                  <= 0.8).
  { cbn [concentration]. apply IZR_le in Hcount.
    pose proof (py_min_ge (IZR (swap_count m) / 10) 1 0.2). lra. }
  split; [exact Hconc|].
  assert (Hs : within 0 85
                 (weighted_score
                    {| volatility := py_min (volume_cv m * 10) 1;
                       liquidity := 1 - py_min (volume_per_minute m / 100) 1;
                       concentration :=
                         1 - py_min (IZR (swap_count m) / 10) 1 |})).
  { rewrite weighted_score_eq. unfold within. lra. }
  split; [exact Hs|].
  apply (py_round_within _ 0 85 0 8500); [simpl; lra | simpl; lra | exact Hs].
Qed.

Lemma pipeline_score_at_most_85_witness :
  exists (m : Metrics) (n : Normalized) (r : RiskResult),
    pipeline (Some (data_of [1; 3])) = Return (Some (m, Assessment r)) /\
    valid_metrics m /\
    normalize m = Return n /\
    concentration n <= 0.8 /\
    within 0 85 (weighted_score n) /\
    within 0 85 (risk_score r).
Proof.
  apply (pipeline_score_at_most_85 (data_of [1; 3]) (swaps_of [1; 3])).
  - reflexivity.
  - simpl. lia.
  - repeat constructor; simpl; lra.
Defined.

(** Negative amounts are not rejected and the normalized values are not
    clamped from the other side: for every bound there are two swaps
    whose score along the pipeline, unrounded and reported, exceeds it,
    with a normalized liquidity above 1. *)
Theorem negative_amounts_unbounded_score (B : R) :
  exists (a : list R) (m : Metrics) (n : Normalized) (r : RiskResult),
    length a = 2%nat /\
    pipeline (Some (data_of a)) = Return (Some (m, Assessment r)) /\
    normalize m = Return n /\
    1 < liquidity n /\
    B < weighted_score n /\
    B < risk_score r.
Proof.
  set (t := 10 * Rabs B + 1000).
  assert (Ht : 1000 <= t) by (unfold t; pose proof (Rabs_pos B); lra).
  assert (HB : B <= Rabs B) by apply Rle_abs.
  pose proof (calculate_basic_metrics_amounts [- t; - t] (le_n 2)) as Hm.
  assert (Hsum : Rsum [- t; - t] = - 2 * t) by (simpl; lra).
  assert (Hmean : mean_of [- t; - t] = - t).
  { unfold mean_of. rewrite Hsum. simpl. field. }
  rewrite Hsum, Hmean in Hm.
  destruct (Rlt_dec 0 (- t)) as [Hpos|_]; [lra|].
  exists [- t; - t]. do 3 eexists.
  split; [reflexivity|].
  split.
  { unfold pipeline. rewrite Hm. cbn [bind].
    rewrite (compute_risk_score_ok _ _ (normalize_ok _)). reflexivity. }
  split; [apply normalize_ok|].
  cbn [liquidity volume_per_minute volume_cv swap_count risk_score build_result
       length Z.of_nat Pos.of_succ_nat Pos.succ].
  match goal with |- _ /\ _ < ?s /\ _ => set (score := s) end.
  assert (Hliq : py_min (- 2 * t / 5 / 100) 1 = - 2 * t / 5 / 100)
    by (apply py_min_l; lra).
  assert (Hscore : score = 50 + 0.12 * t).
  { unfold score. rewrite weighted_score_eq.
    cbn [volatility liquidity concentration]. rewrite Hliq.
    rewrite (py_min_l (0 * 10) 1) by lra.
    rewrite (py_min_l (2 / 10) 1) by lra. lra. }
  split; [rewrite Hliq; lra|].
  pose proof (Rabs_pos B) as HB0.
  assert (Hgt : B + 1 < score) by (rewrite Hscore; unfold t; lra).
  clearbody score.
  split; [lra|].
  pose proof (Rabs_le_inv _ _ (py_round_close score 2)) as Hr.
  simpl in Hr. lra.
Qed.

(* ================================================================= *)
(** ** [main] of [risk_scoring.py] *)

(** Without the input file, without a swap sequence in it, or with
    fewer than 2 swaps, [main] ends without an exception and writes
    nothing: an assessment file of an earlier run stays as it is. *)
Theorem main_without_data_writes_nothing (disk : RiskScoringScript.Disk) :
  RiskScoringScript.structured_swaps_json disk = None \/
  (exists swap_data,
     RiskScoringScript.structured_swaps_json disk = Some swap_data /\
     (swap_records swap_data = None \/
      exists swaps, swap_records swap_data = Some swaps /\
                    (length swaps < 2)%nat)) ->
  RiskScoringScript.main disk = Return disk.
Proof.
  unfold RiskScoringScript.main.
  intros [Hnone | (swap_data & Hsome & Hrec)].
  - rewrite Hnone. reflexivity.
  - rewrite Hsome, (calculate_basic_metrics_none _ Hrec). reflexivity.
Qed.

Lemma main_without_data_writes_nothing_witness :
  RiskScoringScript.main
    {| RiskScoringScript.structured_swaps_json := Some (Some (data_of [5]));
       RiskScoringScript.risk_assessment_json := None |} =
  Return
    {| RiskScoringScript.structured_swaps_json := Some (Some (data_of [5]));
       RiskScoringScript.risk_assessment_json := None |}.
Proof.
  apply main_without_data_writes_nothing.
  right. exists (Some (data_of [5])). split; [reflexivity|].
  right. exists (swaps_of [5]). split; [reflexivity | simpl; lia].
Defined.

(** With at least 2 swaps in the input file, [main] writes the
    assessment file: it holds the metrics of the swaps and their
    assessment, tagged ['v0.1-basic'], and the input file is as before. *)
Theorem main_saves_assessment (disk : RiskScoringScript.Disk)
    (swap_data : option SwapData) (swaps : list SwapRecord) :
  RiskScoringScript.structured_swaps_json disk = Some swap_data ->
  swap_records swap_data = Some swaps ->
  (2 <= length swaps)%nat ->
  exists (m : Metrics) (r : RiskResult) (doc : RiskScoringScript.AssessmentDoc),
    calculate_basic_metrics swap_data = Return (Some m) /\
    compute_risk_score (Some m) = Return (Assessment r) /\
    RiskScoringScript.main disk =
      Return {| RiskScoringScript.structured_swaps_json := Some swap_data;
                RiskScoringScript.risk_assessment_json := Some doc |} /\
    RiskScoringScript.metrics doc = m /\
    RiskScoringScript.risk_assessment doc = Assessment r /\
    RiskScoringScript.model_version (RiskScoringScript.metadata doc) =
      "v0.1-basic"%string.
Proof.
  intros Hfile Hrec Hlen.
  destruct swap_data as [d|]; [|discriminate]. simpl in Hrec.
  pose proof (calculate_basic_metrics_ok d swaps Hrec Hlen) as Hm.
  cbv zeta in Hm.
  do 3 eexists. split; [exact Hm|].
  split; [apply compute_risk_score_ok, normalize_ok|].
  split; [|split; [|split]].
  - unfold RiskScoringScript.main. rewrite Hfile, Hm. cbn [bind].
    rewrite (compute_risk_score_ok _ _ (normalize_ok _)). cbn [bind].
    unfold RiskScoringScript.save_risk_assessment. rewrite Hfile. reflexivity.
  - reflexivity.
  - reflexivity.
  - reflexivity.
Qed.

Lemma main_saves_assessment_witness :
  exists (m : Metrics) (r : RiskResult) (doc : RiskScoringScript.AssessmentDoc),
    calculate_basic_metrics (Some (data_of [1; 3])) = Return (Some m) /\
    compute_risk_score (Some m) = Return (Assessment r) /\
    RiskScoringScript.main
      {| RiskScoringScript.structured_swaps_json := Some (Some (data_of [1; 3]));
         RiskScoringScript.risk_assessment_json := None |} =
      Return {| RiskScoringScript.structured_swaps_json :=
                  Some (Some (data_of [1; 3]));
                RiskScoringScript.risk_assessment_json := Some doc |} /\
    RiskScoringScript.metrics doc = m /\
    RiskScoringScript.risk_assessment doc = Assessment r /\
    RiskScoringScript.model_version (RiskScoringScript.metadata doc) =
      "v0.1-basic"%string.
Proof.
  apply (main_saves_assessment _ (Some (data_of [1; 3])) (swaps_of [1; 3])).
  - reflexivity.
  - reflexivity.
  - simpl. lia.
Defined.

(* ================================================================= *)
(** ** [fix_chainlink.py] *)

(** [fix_chainlink_integration] returns [None] exactly when the provider
    is not connected, and then leaves the file alone; when connected it
    always returns a price and writes a file whose ['eth_usd'] is the
    returned price. *)
Theorem chainlink_none_iff_not_connected (w3 : FixChainlink.Web3)
    (disk : option FixChainlink.PriceData) :
  (fst (FixChainlink.fix_chainlink_integration w3 disk) = None <->
   FixChainlink.is_connected w3 = false) /\
  (FixChainlink.is_connected w3 = false ->
   snd (FixChainlink.fix_chainlink_integration w3 disk) = disk) /\
  (FixChainlink.is_connected w3 = true ->
   exists (p : R) (pd : FixChainlink.PriceData),
     FixChainlink.fix_chainlink_integration w3 disk = (Some p, Some pd) /\
     FixChainlink.eth_usd pd = p).
Proof.
  unfold FixChainlink.fix_chainlink_integration, FixChainlink.fallback.
  destruct (FixChainlink.is_connected w3); cbn [negb].
  - assert (H : exists (p : R) (pd : FixChainlink.PriceData),
               match FixChainlink.latestRoundData w3 with
               | FixChainlink.CallRaises => FixChainlink.fallback
               | FixChainlink.CallReturns rd =>
                 match truediv (IZR (FixChainlink.price rd)) (IZR (10 ^ 8)) with
                 | Raise _ => FixChainlink.fallback
                 | Return eth_price_usd =>
                   (Some eth_price_usd,
                    Some {| FixChainlink.eth_usd := eth_price_usd;
                            FixChainlink.pd_updated_at :=
                              inl (FixChainlink.updated_at rd);
                            FixChainlink.source := "Chainlink";
                            FixChainlink.contract :=
                              Some FixChainlink.CHAINLINK_ETH_USD;
                            FixChainlink.note := None |})
                 end
               end = (Some p, Some pd) /\ FixChainlink.eth_usd pd = p).
    { destruct (FixChainlink.latestRoundData w3) as [|rd].
      - do 2 eexists. split; reflexivity.
      - destruct (truediv (IZR (FixChainlink.price rd)) (IZR (10 ^ 8))).
        + do 2 eexists. split; reflexivity.
        + do 2 eexists. split; reflexivity. }
    unfold FixChainlink.fallback in H.
    destruct H as (p & pd & Heq & Hpd).
    split; [|split].
    + rewrite Heq. simpl. split; discriminate.
    + discriminate.
    + intros _. exists p, pd. split; [exact Heq | exact Hpd].
  - split; [|split].
    + simpl. split; reflexivity.
    + reflexivity.
    + discriminate.
Qed.

Lemma chainlink_none_iff_not_connected_witness :
  snd (FixChainlink.fix_chainlink_integration
         {| FixChainlink.is_connected := false;
            FixChainlink.latestRoundData := FixChainlink.CallRaises |}
         None) = None /\
  exists (p : R) (pd : FixChainlink.PriceData),
    FixChainlink.fix_chainlink_integration
      {| FixChainlink.is_connected := true;
         FixChainlink.latestRoundData := FixChainlink.CallRaises |}
      None = (Some p, Some pd) /\
    FixChainlink.eth_usd pd = p.
Proof.
  split.
  - apply (proj1 (proj2 (chainlink_none_iff_not_connected
                           {| FixChainlink.is_connected := false;
                              FixChainlink.latestRoundData :=
                                FixChainlink.CallRaises |} None))).
    reflexivity.
  - apply (proj2 (proj2 (chainlink_none_iff_not_connected
                           {| FixChainlink.is_connected := true;
                              FixChainlink.latestRoundData :=
                                FixChainlink.CallRaises |} None))).
    reflexivity.
Defined.

Section MoreOnChainlink.

Lemma chainlink_fetched (w3 : FixChainlink.Web3)
    (disk : option FixChainlink.PriceData) (rd : FixChainlink.RoundData) :
  FixChainlink.is_connected w3 = true ->
  FixChainlink.latestRoundData w3 = FixChainlink.CallReturns rd ->
  FixChainlink.fix_chainlink_integration w3 disk =
  (Some (IZR (FixChainlink.price rd) / 100000000),
   Some {| FixChainlink.eth_usd := IZR (FixChainlink.price rd) / 100000000;
           FixChainlink.pd_updated_at := inl (FixChainlink.updated_at rd);
           FixChainlink.source := "Chainlink";
           FixChainlink.contract := Some FixChainlink.CHAINLINK_ETH_USD;
           FixChainlink.note := None |}).
Proof.
  intros Hconn Hcall. unfold FixChainlink.fix_chainlink_integration.
  rewrite Hconn, Hcall. cbn [negb].
  replace (10 ^ 8)%Z with 100000000%Z by reflexivity.
  rewrite truediv_ok by lra. reflexivity.
Qed.

End MoreOnChainlink.

(** A fetched answer is taken as it comes: the returned and saved price
    is what the division of the answer by [10**8] returns, whatever the
    sign of the answer and whatever the round and its timestamps are; a
    zero or negative answer gives a zero or negative price. *)
Theorem chainlink_price_is_unvalidated_answer (w3 : FixChainlink.Web3)
    (disk : option FixChainlink.PriceData) (rd : FixChainlink.RoundData) :
  FixChainlink.is_connected w3 = true ->
  FixChainlink.latestRoundData w3 = FixChainlink.CallReturns rd ->
  exists (p : R) (pd : FixChainlink.PriceData),
    FixChainlink.fix_chainlink_integration w3 disk = (Some p, Some pd) /\
    truediv (IZR (FixChainlink.price rd)) (IZR (10 ^ 8)) = Return p /\
    FixChainlink.eth_usd pd = p /\
    FixChainlink.source pd = "Chainlink"%string /\
    FixChainlink.pd_updated_at pd = inl (FixChainlink.updated_at rd) /\
    ((FixChainlink.price rd <= 0)%Z -> p <= 0) /\
    ((0 < FixChainlink.price rd)%Z -> 0 < p).
Proof.
  intros Hconn Hcall. do 2 eexists.
  split; [apply (chainlink_fetched w3 disk rd Hconn Hcall)|].
  cbn [FixChainlink.eth_usd FixChainlink.source FixChainlink.pd_updated_at].
  split.
  { replace (10 ^ 8)%Z with 100000000%Z by reflexivity.
    apply truediv_ok. lra. }
  split; [reflexivity|]. split; [reflexivity|].
  split; [reflexivity|].
  split; intros H.
  - apply IZR_le in H. lra.
  - apply IZR_lt in H. lra.
Qed.

Lemma chainlink_price_is_unvalidated_answer_witness :
  exists (p : R) (pd : FixChainlink.PriceData),
    FixChainlink.fix_chainlink_integration
      {| FixChainlink.is_connected := true;
         FixChainlink.latestRoundData :=
           FixChainlink.CallReturns
             {| FixChainlink.round_id := 1;
                FixChainlink.price := -250000000000;
                FixChainlink.started_at := 0;
                FixChainlink.updated_at := 0;
                FixChainlink.answered_in_round := 0 |} |}
      None = (Some p, Some pd) /\
    FixChainlink.eth_usd pd = p /\
    p <= 0.
Proof.
  destruct (chainlink_price_is_unvalidated_answer
              {| FixChainlink.is_connected := true;
                 FixChainlink.latestRoundData :=
                   FixChainlink.CallReturns
                     {| FixChainlink.round_id := 1;
                        FixChainlink.price := -250000000000;
                        FixChainlink.started_at := 0;
                        FixChainlink.updated_at := 0;
                        FixChainlink.answered_in_round := 0 |} |}
              None _ eq_refl eq_refl)
    as (p & pd & Hfix & _ & Hpd & _ & _ & Hneg & _).
  exists p, pd. split; [exact Hfix|].
  split; [exact Hpd|]. apply Hneg. simpl. lia.
Defined.

(** [main] takes the price as a truth value: its "ready" block runs
    exactly when the provider is connected and the fetch either failed
    (the fallback price 3000 counts as a price) or returned a non-zero
    answer.  A fetched answer of 0 is treated like no connection. *)
Theorem chainlink_main_ready_iff (w3 : FixChainlink.Web3)
    (disk : option FixChainlink.PriceData) :
  fst (FixChainlink.main w3 disk) = true <->
  FixChainlink.is_connected w3 = true /\
  (FixChainlink.latestRoundData w3 = FixChainlink.CallRaises \/
   exists rd : FixChainlink.RoundData,
     FixChainlink.latestRoundData w3 = FixChainlink.CallReturns rd /\
     FixChainlink.price rd <> 0%Z).
Proof.
  unfold FixChainlink.main.
  destruct (FixChainlink.is_connected w3) eqn:Hconn.
  - destruct (FixChainlink.latestRoundData w3) as [|rd] eqn:Hcall.
    + unfold FixChainlink.fix_chainlink_integration.
      rewrite Hconn, Hcall. cbn [negb FixChainlink.fallback fst].
      unfold FixChainlink.price_truthy.
      destruct (Req_dec_T 3000 0); [lra|].
      split; [intros _; split; [reflexivity | left; reflexivity] | reflexivity].
    + rewrite (chainlink_fetched w3 disk rd Hconn Hcall). cbn [fst].
      unfold FixChainlink.price_truthy.
      destruct (Req_dec_T (IZR (FixChainlink.price rd) / 100000000) 0)
        as [Hz|Hnz].
      * assert (Hp : FixChainlink.price rd = 0%Z).
        { apply eq_IZR. lra. }
        split; [discriminate|].
        intros (_ & [Habs | (rd' & Heq & Hne)]); [discriminate|].
        injection Heq as <-. contradiction.
      * split; [|reflexivity]. intros _. split; [reflexivity|].
        right. exists rd. split; [reflexivity|].
        intros Hp. apply Hnz. rewrite Hp. lra.
  - unfold FixChainlink.fix_chainlink_integration. rewrite Hconn.
    cbn [negb fst FixChainlink.price_truthy].
    split; [discriminate | intros [H _]; discriminate].
Qed.

(* ================================================================= *)
(** ** What a HIGH level takes *)

(** For valid metrics the level HIGH needs all three factors: a
    coefficient of variation above 0.0428, less than 66.67 ETH per
    minute and at most 8 swaps.  (The exact thresholds of the real
    arithmetic are 3/70 and 200/3; the bounds are stated with a margin
    that the rounding of the sum cannot bridge.) *)
Theorem high_needs_all_three_factors (m : Metrics) (r : RiskResult) :
  valid_metrics m ->
  compute_risk_score (Some m) = Return (Assessment r) ->
  risk_level r = HIGH ->
  0.0428 < volume_cv m /\
  volume_per_minute m < 66.67 /\
  (swap_count m <= 8)%Z.
Proof.
  intros Hvalid Hr Hhigh.
  destruct (normalize_unit m _ Hvalid (normalize_ok m))
    as ([Hv0 Hv1] & [Hl0 Hl1] & [Hc0 Hc1]).
  rewrite (compute_risk_score_ok m _ (normalize_ok m)) in Hr.
  injection Hr as <-. cbn [risk_level build_result] in Hhigh.
  apply categorize_level in Hhigh. rewrite weighted_score_eq in Hhigh.
  cbn [volatility liquidity concentration] in *.
  pose proof (py_min_le_l (volume_cv m * 10) 1) as Hv.
  assert (Hl : volume_per_minute m / 100 <= 2 / 3).
  { unfold py_min in *.
    destruct (Rlt_dec 1 (volume_per_minute m / 100)); lra. }
  assert (Hc : IZR (swap_count m) / 10 <= 8 / 10).
  { unfold py_min in *.
    destruct (Rlt_dec 1 (IZR (swap_count m) / 10)); lra. }
  split; [lra|]. split; [lra|].
  apply le_IZR. lra.
Qed.

Lemma high_needs_all_three_factors_witness :
  exists r : RiskResult,
    compute_risk_score (Some (metrics_of 1 0 0)) = Return (Assessment r) /\
    risk_level r = HIGH /\
    0.0428 < volume_cv (metrics_of 1 0 0) /\
    volume_per_minute (metrics_of 1 0 0) < 66.67 /\
    (swap_count (metrics_of 1 0 0) <= 8)%Z.
Proof.
  pose proof (compute_risk_score_ok _ _ (normalize_ok (metrics_of 1 0 0))) as Hr.
  eexists. split; [exact Hr|].
  match type of Hr with
  | _ = Return (Assessment ?r) => assert (Hhigh : risk_level r = HIGH)
  end.
  { cbn [risk_level build_result]. apply categorize_level.
    rewrite weighted_score_eq. unfold metrics_of. simpl. eval_py_min. lra. }
  split; [exact Hhigh|].
  assert (Hvalid : valid_metrics (metrics_of 1 0 0)).
  { unfold valid_metrics, metrics_of. simpl. repeat split; try lra; lia. }
  exact (high_needs_all_three_factors (metrics_of 1 0 0) _ Hvalid Hr Hhigh).
Defined.

(* ================================================================= *)
(** ** Rounding to binary64 *)

Section Binary64Rounding.

Local Abbreviation bpow := Binary64.bpow.
Local Abbreviation mag := Binary64.mag.
Local Abbreviation fexp := Binary64.fexp.
Local Abbreviation rnd := Binary64.rnd.

Lemma bpow_pos (e : Z) : 0 < bpow e.
Proof. apply powerRZ_lt. lra. Qed.

Lemma bpow_add (a b : Z) : bpow (a + b) = bpow a * bpow b.
Proof. apply powerRZ_add. lra. Qed.

Lemma bpow_exp (e : Z) : bpow e = exp (IZR e * ln 2).
Proof.
  unfold Binary64.bpow. rewrite powerRZ_Rpower by lra. reflexivity.
Qed.

Lemma ln2_pos : 0 < ln 2.
Proof. rewrite <- ln_1. apply ln_increasing; lra. Qed.

Lemma bpow_lt (a b : Z) : (a < b)%Z -> bpow a < bpow b.
Proof.
  intros H. rewrite !bpow_exp. apply exp_increasing.
  apply IZR_lt in H. pose proof ln2_pos. nra.
Qed.

Lemma bpow_le (a b : Z) : (a <= b)%Z -> bpow a <= bpow b.
Proof.
  intros H. apply Zle_lt_or_eq in H as [H| ->]; [left; apply bpow_lt, H | lra].
Qed.

Lemma bpow_lt_inv (a b : Z) : bpow a < bpow b -> (a < b)%Z.
Proof.
  intros H. destruct (Z_lt_le_dec a b) as [|Hle]; [assumption|].
  apply bpow_le in Hle. lra.
Qed.

Lemma bpow_nonneg_IZR (e : Z) : (0 <= e)%Z -> bpow e = IZR (2 ^ e).
Proof.
  intros H. unfold Binary64.bpow.
  rewrite <- (Z2Nat.id e H), <- pow_powerRZ, pow_IZR. reflexivity.
Qed.

Lemma bpow_Zpos (p : positive) : bpow (Zpos p) = IZR (2 ^ Zpos p).
Proof. apply bpow_nonneg_IZR. lia. Qed.

Lemma bpow_Zneg (p : positive) : bpow (Zneg p) = / IZR (2 ^ Zpos p).
Proof.
  change (Zneg p) with (- Zpos p)%Z. unfold Binary64.bpow.
  rewrite powerRZ_neg'. f_equal. apply bpow_Zpos.
Qed.

Lemma bpow_0 : bpow 0 = 1.
Proof. reflexivity. Qed.

(** The binade of a positive number. *)
Lemma mag_spec (x : R) : 0 < x -> bpow (mag x - 1) <= x < bpow (mag x).
Proof.
  intros Hx. unfold Binary64.mag. rewrite Rabs_pos_eq by lra.
  pose proof ln2_pos as Hl2.
  destruct (base_Int_part (ln x / ln 2)) as [Hlo Hhi].
  set (f := Int_part (ln x / ln 2)) in *.
  assert (Ht : ln x = ln x / ln 2 * ln 2) by (field; lra).
  rewrite !bpow_exp.
  replace (f + 1 - 1)%Z with f by lia. rewrite plus_IZR.
  pose proof (exp_ln x Hx) as Hex.
  split.
  - destruct (Req_dec (IZR f * ln 2) (ln x)) as [Heq|Hne].
    + rewrite Heq, Hex. lra.
    + rewrite <- Hex. left. apply exp_increasing. nra.
  - rewrite <- Hex at 1. apply exp_increasing. nra.
Qed.

Lemma mag_unique (x : R) (e : Z) : bpow (e - 1) <= x < bpow e -> mag x = e.
Proof.
  intros [Hlo Hhi].
  assert (Hx : 0 < x) by (pose proof (bpow_pos (e - 1)); lra).
  destruct (mag_spec x Hx) as [Hlo' Hhi'].
  assert (H1 : (e - 1 < mag x)%Z) by (apply bpow_lt_inv; lra).
  assert (H2 : (mag x - 1 < e)%Z) by (apply bpow_lt_inv; lra).
  lia.
Qed.

Lemma mag_mono (x y : R) : 0 < x -> x <= y -> (mag x <= mag y)%Z.
Proof.
  intros Hx Hxy.
  destruct (mag_spec x Hx) as [Hlo _].
  destruct (mag_spec y) as [_ Hhi]; [lra|].
  assert (H : (mag x - 1 < mag y)%Z) by (apply bpow_lt_inv; lra).
  lia.
Qed.

Lemma rnd_0 : rnd 0 = 0.
Proof.
  unfold Binary64.rnd. unfold Rdiv. rewrite Rmult_0_l.
  rewrite rint_IZR. lra.
Qed.

Lemma rnd_nonneg (x : R) : 0 <= x -> 0 <= rnd x.
Proof.
  intros Hx. unfold Binary64.rnd.
  pose proof (bpow_pos (fexp (mag x))) as Hp.
  assert (H : (0 <= rint (x / bpow (fexp (mag x))))%Z).
  { apply rint_ge. apply Rmult_le_pos; [exact Hx|].
    left. apply Rinv_0_lt_compat, Hp. }
  apply IZR_le in H. nra.
Qed.

(** Rounding does not cross a power of two that the format of the
    rounded value holds. *)
Lemma rnd_le_bpow (x : R) (k : Z) :
  0 < x -> x <= bpow k -> (fexp (mag x) <= k)%Z -> rnd x <= bpow k.
Proof.
  intros Hx Hxk Hk. unfold Binary64.rnd.
  set (e := fexp (mag x)) in *.
  pose proof (bpow_pos e) as Hp.
  assert (Hq : bpow k = IZR (2 ^ (k - e)) * bpow e).
  { rewrite <- bpow_nonneg_IZR by lia. rewrite <- bpow_add. f_equal. lia. }
  assert (H : (rint (x / bpow e) <= 2 ^ (k - e))%Z).
  { apply rint_le.
    apply Rmult_le_reg_r with (bpow e); [exact Hp|].
    unfold Rdiv. rewrite Rmult_assoc, Rinv_l by lra. lra. }
  apply IZR_le in H. rewrite Hq. nra.
Qed.

Lemma rnd_ge_bpow (x : R) (k : Z) :
  bpow k <= x -> (fexp (mag x) <= k)%Z -> bpow k <= rnd x.
Proof.
  intros Hxk Hk. unfold Binary64.rnd.
  set (e := fexp (mag x)) in *.
  pose proof (bpow_pos e) as Hp.
  assert (Hq : bpow k = IZR (2 ^ (k - e)) * bpow e).
  { rewrite <- bpow_nonneg_IZR by lia. rewrite <- bpow_add. f_equal. lia. }
  assert (H : (2 ^ (k - e) <= rint (x / bpow e))%Z).
  { apply rint_ge.
    apply Rmult_le_reg_r with (bpow e); [exact Hp|].
    unfold Rdiv. rewrite Rmult_assoc, Rinv_l by lra. lra. }
  apply IZR_le in H. rewrite Hq. nra.
Qed.

(** Rounding is monotone on the non-negative numbers. *)
Lemma rnd_mono (x y : R) : 0 <= x -> x <= y -> rnd x <= rnd y.
Proof.
  intros Hx Hxy.
  destruct (Req_dec x 0) as [->|Hx0].
  { rewrite rnd_0. apply rnd_nonneg. lra. }
  assert (Hxp : 0 < x) by lra.
  assert (Hyp : 0 < y) by lra.
  pose proof (mag_mono x y Hxp Hxy) as Hmag.
  destruct (Z.eq_dec (fexp (mag x)) (fexp (mag y))) as [Heq|Hne].
  - unfold Binary64.rnd. rewrite <- Heq.
    set (e := fexp (mag x)).
    pose proof (bpow_pos e) as Hp.
    assert (H : (rint (x / bpow e) <= rint (y / bpow e))%Z).
    { apply rint_mono. unfold Rdiv.
      apply Rmult_le_compat_r; [|exact Hxy].
      left. apply Rinv_0_lt_compat, Hp. }
    apply IZR_le in H. nra.
  - assert (Hlt : (mag x < mag y)%Z).
    { unfold Binary64.fexp in Hne. lia. }
    assert (Hey : fexp (mag y) = (mag y - 53)%Z).
    { unfold Binary64.fexp in *. lia. }
    destruct (mag_spec x Hxp) as [_ Hxhi].
    destruct (mag_spec y Hyp) as [Hylo _].
    set (k := Z.max (mag x) (fexp (mag x))).
    apply Rle_trans with (bpow k).
    + apply rnd_le_bpow; [exact Hxp | | unfold k; lia].
      apply Rle_trans with (bpow (mag x)); [lra | apply bpow_le; unfold k; lia].
    + apply Rle_trans with (bpow (mag y - 1)).
      * apply bpow_le. unfold k, Binary64.fexp in *. lia.
      * apply rnd_ge_bpow; [exact Hylo | lia].
Qed.

(** [rnd] at a value whose binade is known. *)
Lemma rnd_eval (x : R) (e fe k : Z) :
  fexp e = fe ->
  bpow (e - 1) <= x < bpow e ->
  rint (x / bpow fe) = k ->
  rnd x = IZR k * bpow fe.
Proof.
  intros Hfe Hb Hk. unfold Binary64.rnd.
  rewrite (mag_unique x e Hb), Hfe, Hk. reflexivity.
Qed.

Lemma rint_down (y : R) (k : Z) :
  IZR k <= y -> y < IZR k + 1 / 2 -> rint y = k.
Proof.
  intros Hlo Hhi. unfold rint.
  assert (Hf : Int_part y = k) by (symmetry; apply Int_part_spec; lra).
  rewrite Hf.
  destruct (Rlt_dec (y - IZR k) (1 / 2)); [reflexivity | lra].
Qed.

Lemma rint_tie_even (y : R) (k : Z) :
  y = IZR k + 1 / 2 -> Z.even k = true -> rint y = k.
Proof.
  intros Hy Hk. unfold rint.
  assert (Hf : Int_part y = k) by (symmetry; apply Int_part_spec; lra).
  rewrite Hf, Hk.
  destruct (Rlt_dec (y - IZR k) (1 / 2)); [reflexivity|].
  destruct (Rlt_dec (1 / 2) (y - IZR k)); [lra | reflexivity].
Qed.

End Binary64Rounding.

(** Turn the powers of two of a goal into numerals. *)
Ltac eval_bpow :=
  repeat match goal with
         | |- context [Binary64.bpow (Zneg ?p)] =>
             rewrite (bpow_Zneg p);
             let v := eval vm_compute in (2 ^ Zpos p)%Z in
             change (2 ^ Zpos p)%Z with v
         | |- context [Binary64.bpow (Zpos ?p)] =>
             rewrite (bpow_Zpos p);
             let v := eval vm_compute in (2 ^ Zpos p)%Z in
             change (2 ^ Zpos p)%Z with v
         | |- context [Binary64.bpow 0] => rewrite bpow_0
         end.

Section Binary64Constants.

Local Abbreviation bpow := Binary64.bpow.
Local Abbreviation rnd := Binary64.rnd.

(** The literals [0.35], [0.30] and [0.25] as binary64 values. *)
Lemma rnd_035 : rnd 0.35 = 6305039478318694 * bpow (-54).
Proof.
  apply (rnd_eval _ (-1) (-54)); [reflexivity | simpl; eval_bpow; lra |].
  eval_bpow. apply rint_down; lra.
Qed.

Lemma rnd_030 : rnd 0.30 = 5404319552844595 * bpow (-54).
Proof.
  apply (rnd_eval _ (-1) (-54)); [reflexivity | simpl; eval_bpow; lra |].
  eval_bpow. apply rint_down; lra.
Qed.

Lemma rnd_025 : rnd 0.25 = 0.25.
Proof.
  rewrite (rnd_eval _ (-1) (-54) 4503599627370496);
    [eval_bpow; lra | reflexivity | simpl; eval_bpow; lra |].
  eval_bpow. apply rint_down; lra.
Qed.

Lemma rnd_1 : rnd 1 = 1.
Proof.
  rewrite (rnd_eval _ 1 (-52) 4503599627370496);
    [eval_bpow; lra | reflexivity | simpl; eval_bpow; lra |].
  eval_bpow. apply rint_down; lra.
Qed.

End Binary64Constants.

Section Binary64Score.

Local Abbreviation bpow := Binary64.bpow.
Local Abbreviation rnd := Binary64.rnd.

Lemma rnd_w35 : rnd (6305039478318694 * bpow (-54)) = 6305039478318694 * bpow (-54).
Proof.
  apply (rnd_eval _ (-1) (-54)); [reflexivity | simpl; eval_bpow; lra |].
  eval_bpow. apply rint_down; lra.
Qed.

Lemma rnd_w30 : rnd (5404319552844595 * bpow (-54)) = 5404319552844595 * bpow (-54).
Proof.
  apply (rnd_eval _ (-1) (-54)); [reflexivity | simpl; eval_bpow; lra |].
  eval_bpow. apply rint_down; lra.
Qed.

(** [0.35 + 0.30] is half way between two binary64 values; the one
    with the even significand, printed [0.6499999999999999], is taken. *)
Lemma rnd_sum2 :
  rnd (6305039478318694 * bpow (-54) + 5404319552844595 * bpow (-54)) =
  5854679515581644 * bpow (-53).
Proof.
  apply (rnd_eval _ 0 (-53)); [reflexivity | simpl; eval_bpow; lra |].
  eval_bpow. apply rint_tie_even; [lra | reflexivity].
Qed.

(** [0.6499999999999999 + 0.25] is [0.8999999999999999], exactly. *)
Lemma rnd_sum3 :
  rnd (5854679515581644 * bpow (-53) + 0.25) = 8106479329266892 * bpow (-53).
Proof.
  apply (rnd_eval _ 0 (-53)); [reflexivity | simpl; eval_bpow; lra |].
  eval_bpow. apply rint_down; lra.
Qed.

(** [0.8999999999999999 * 100] rounds to [89.99999999999999]. *)
Lemma rnd_final :
  rnd (8106479329266892 * bpow (-53) * 100) = largest_score.
Proof.
  unfold largest_score.
  apply (rnd_eval _ 7 (-46)); [reflexivity | simpl; eval_bpow; lra |].
  eval_bpow. apply rint_down; lra.
Qed.

Lemma largest_score_lt_90 : largest_score < 90.
Proof. unfold largest_score. eval_bpow. lra. Qed.

Lemma largest_score_value : largest_score = 90 - bpow (-46).
Proof. unfold largest_score. eval_bpow. lra. Qed.

(** Rounding does not cross a binary64 value. *)
Lemma rnd_le_repr (x f : R) : 0 <= x -> x <= f -> rnd f = f -> rnd x <= f.
Proof.
  intros Hx Hxf Hf. rewrite <- Hf. apply rnd_mono; assumption.
Qed.

Lemma rnd_ge_repr (x f : R) : 0 <= f -> f <= x -> rnd f = f -> f <= rnd x.
Proof.
  intros Hf0 Hfx Hf. rewrite <- Hf. apply rnd_mono; assumption.
Qed.

Lemma b64_normalize_ok (m : Metrics) :
  Binary64.normalize m =
  Return {| volatility := py_min (rnd (volume_cv m * 10)) 1;
            liquidity := rnd (1 - py_min (rnd (volume_per_minute m / 100)) 1);
            concentration :=
              rnd (1 - py_min (rnd (IZR (swap_count m) / 10)) 1) |}.
Proof.
  unfold Binary64.normalize, Binary64.truediv.
  destruct (Req_dec_T 100 0); [lra|].
  destruct (Req_dec_T 10 0); [lra|].
  reflexivity.
Qed.

(** One minus a clamped non-negative value, rounded, is in [0,1]. *)
Lemma b64_complement_unit (q : R) :
  0 <= q -> within 0 1 (rnd (1 - py_min q 1)).
Proof.
  intros Hq.
  pose proof (py_min_le_r q 1). pose proof (py_min_ge q 1 0 Hq).
  split.
  - apply rnd_nonneg. lra.
  - apply rnd_le_repr; [lra | lra | apply rnd_1].
Qed.

Lemma b64_normalize_unit (m : Metrics) (n : Normalized) :
  valid_metrics m -> Binary64.normalize m = Return n ->
  within 0 1 (volatility n) /\ within 0 1 (liquidity n) /\
  within 0 1 (concentration n).
Proof.
  intros (Hcv & Hvpm & Hcount) Hn.
  rewrite b64_normalize_ok in Hn. injection Hn as <-.
  apply IZR_le in Hcount.
  cbn [volatility liquidity concentration].
  split; [|split].
  - assert (H0 : 0 <= rnd (volume_cv m * 10)) by (apply rnd_nonneg; lra).
    pose proof (py_min_le_r (rnd (volume_cv m * 10)) 1).
    pose proof (py_min_ge (rnd (volume_cv m * 10)) 1 0 H0).
    unfold within. lra.
  - apply b64_complement_unit. apply rnd_nonneg. lra.
  - apply b64_complement_unit. apply rnd_nonneg. lra.
Qed.

(** The rounded product of a value of [0,1] and a binary64 weight is
    between 0 and the weight. *)
Lemma b64_term_bound (x w : R) :
  within 0 1 x -> 0 <= w -> rnd w = w -> within 0 w (rnd (x * w)).
Proof.
  intros [H0 H1] Hw Hrw. split.
  - apply rnd_nonneg. nra.
  - apply rnd_le_repr; [nra | nra | exact Hrw].
Qed.

(** Whatever the normalized values of [0,1], the binary64 score is at
    most [largest_score]. *)
Lemma b64_score_le_largest (n : Normalized) :
  within 0 1 (volatility n) -> within 0 1 (liquidity n) ->
  within 0 1 (concentration n) ->
  within 0 largest_score (Binary64.weighted_score n).
Proof.
  intros Hv Hl Hc.
  unfold Binary64.weighted_score, Binary64.risk_weights, Binary64.add,
    Binary64.mul.
  cbn [volume_volatility liquidity_depth concentration_risk].
  rewrite rnd_035, rnd_030, rnd_025.
  set (w35 := 6305039478318694 * bpow (-54)).
  set (w30 := 5404319552844595 * bpow (-54)).
  assert (Hw35 : 0 <= w35) by (unfold w35; eval_bpow; lra).
  assert (Hw30 : 0 <= w30) by (unfold w30; eval_bpow; lra).
  destruct (b64_term_bound _ w35 Hv Hw35 rnd_w35) as [Ha1 Ha1'].
  destruct (b64_term_bound _ w30 Hl Hw30 rnd_w30) as [Ha2 Ha2'].
  destruct (b64_term_bound _ 0.25 Hc ltac:(lra) rnd_025) as [Ha3 Ha3'].
  set (a1 := rnd (volatility n * w35)) in *.
  set (a2 := rnd (liquidity n * w30)) in *.
  set (a3 := rnd (concentration n * 0.25)) in *.
  assert (Ht1 : within 0 w35 (rnd (0 + a1))).
  { split; [apply rnd_nonneg; lra|].
    apply rnd_le_repr; [lra | lra | exact rnd_w35]. }
  destruct Ht1 as [Ht1 Ht1']. set (t1 := rnd (0 + a1)) in *.
  assert (Ht2 : within 0 (5854679515581644 * bpow (-53)) (rnd (t1 + a2))).
  { split; [apply rnd_nonneg; lra|].
    apply Rle_trans with (rnd (w35 + w30)); [apply rnd_mono; lra|].
    unfold w35, w30. rewrite rnd_sum2. lra. }
  destruct Ht2 as [Ht2 Ht2']. set (t2 := rnd (t1 + a2)) in *.
  assert (Ht3 : within 0 (8106479329266892 * bpow (-53)) (rnd (t2 + a3))).
  { split; [apply rnd_nonneg; lra|].
    apply Rle_trans with (rnd (5854679515581644 * bpow (-53) + 0.25));
      [apply rnd_mono; lra|].
    rewrite rnd_sum3. lra. }
  destruct Ht3 as [Ht3 Ht3']. set (t3 := rnd (t2 + a3)) in *.
  split; [apply rnd_nonneg; lra|].
  apply Rle_trans with (rnd (8106479329266892 * bpow (-53) * 100));
    [apply rnd_mono; lra|].
  rewrite rnd_final. lra.
Qed.

(** With all three normalized values at 1 the binary64 score is
    [largest_score]. *)
Lemma b64_score_saturated :
  Binary64.weighted_score
    {| volatility := 1; liquidity := 1; concentration := 1 |} = largest_score.
Proof.
  unfold Binary64.weighted_score, Binary64.risk_weights, Binary64.add,
    Binary64.mul.
  cbn [volume_volatility liquidity_depth concentration_risk
       volatility liquidity concentration].
  rewrite rnd_035, rnd_030, rnd_025.
  rewrite !Rmult_1_l, rnd_w35, rnd_w30, rnd_025.
  rewrite Rplus_0_l, rnd_w35, rnd_sum2, rnd_sum3.
  apply rnd_final.
Qed.

Lemma b64_normalize_saturated :
  Binary64.normalize (metrics_of 1 0 0) =
  Return {| volatility := 1; liquidity := 1; concentration := 1 |}.
Proof.
  rewrite b64_normalize_ok. unfold metrics_of.
  cbn [volume_cv volume_per_minute swap_count].
  assert (H10 : 1 <= rnd (1 * 10)).
  { apply rnd_ge_repr; [lra | lra | apply rnd_1]. }
  assert (H0 : rnd (0 / 100) = 0).
  { replace (0 / 100) with 0 by lra. apply rnd_0. }
  assert (H0' : rnd (0 / 10) = 0).
  { replace (0 / 10) with 0 by lra. apply rnd_0. }
  rewrite H0, H0'.
  assert (Hv : py_min (rnd (1 * 10)) 1 = 1).
  { unfold py_min. destruct (Rlt_dec 1 (rnd (1 * 10))); lra. }
  rewrite Hv, (py_min_l 0 1) by lra.
  replace (1 - 0) with 1 by lra. rewrite rnd_1. reflexivity.
Qed.

End Binary64Score.

(* ================================================================= *)
(** ** The largest score *)

(** C2, as stated, fails in binary64: no valid metrics value has an
    unrounded score of exactly 90.  The three weights are the binary64
    values nearest to 0.35, 0.30 and 0.25, their sum rounds to
    0.8999999999999999, and the score of the saturated input (every
    normalized value 1), the largest there is, is 89.99999999999999. *)
Lemma C2_score_never_exactly_90 : ~ max_score_is_90.
Proof.
  intros [_ (m & n & Hvalid & Hn & Heq)].
  destruct (b64_normalize_unit m n Hvalid Hn) as (Hv & Hl & Hc).
  destruct (b64_score_le_largest n Hv Hl Hc) as [_ Hle].
  pose proof largest_score_lt_90. lra.
Qed.

(** C2, amended.  For every valid metrics value the unrounded score is
    at most 90.  Computed in binary64 it is at most 89.99999999999999
    (90 - 2^-46), below 90; that value is reached, with every
    normalized value at 1, and [round(final_score, 2)] reports it as
    90.0. *)
Theorem C2_score_at_most_90 :
  (forall m : Metrics, valid_metrics m ->
     exists n, normalize m = Return n /\ weighted_score n <= 90) /\
  (forall m : Metrics, valid_metrics m ->
     exists n, Binary64.normalize m = Return n /\
               Binary64.weighted_score n <= largest_score) /\
  largest_score = 90 - Binary64.bpow (-46) /\
  (exists (m : Metrics) (n : Normalized),
     valid_metrics m /\ Binary64.normalize m = Return n /\
     Binary64.weighted_score n = largest_score /\
     Binary64.rnd (py_round (Binary64.weighted_score n) 2) = 90).
Proof.
  split; [|split; [|split]].
  - intros m Hm. eexists. split; [apply normalize_ok|].
    destruct (normalize_unit m _ Hm (normalize_ok m)) as ([_ Hv] & [_ Hl] & [_ Hc]).
    rewrite weighted_score_eq. lra.
  - intros m Hm. eexists. split; [apply b64_normalize_ok|].
    destruct (b64_normalize_unit m _ Hm (b64_normalize_ok m)) as (Hv & Hl & Hc).
    apply (b64_score_le_largest _ Hv Hl Hc).
  - apply largest_score_value.
  - exists (metrics_of 1 0 0). eexists.
    split; [|split; [apply b64_normalize_saturated|]].
    + unfold valid_metrics, metrics_of. simpl. repeat split; try lra; lia.
    + rewrite b64_score_saturated. split; [reflexivity|].
      assert (Hr : py_round largest_score 2 = 90).
      { rewrite (py_round_up _ 2 8999).
        - simpl. lra.
        - unfold largest_score. eval_bpow. simpl. lra.
        - unfold largest_score. eval_bpow. simpl. lra. }
      rewrite Hr.
      rewrite (rnd_eval 90 7 (-46) 6333186975989760);
        [eval_bpow; lra | reflexivity | simpl; eval_bpow; lra |].
      eval_bpow. apply rint_down; lra.
Qed.

Lemma C2_score_at_most_90_witness :
  valid_metrics (metrics_of 1000 250 40) /\
  (exists n, normalize (metrics_of 1000 250 40) = Return n /\
             weighted_score n <= 90) /\
  (exists n, Binary64.normalize (metrics_of 1000 250 40) = Return n /\
             Binary64.weighted_score n <= largest_score).
Proof.
  assert (H : valid_metrics (metrics_of 1000 250 40)).
  { unfold valid_metrics, metrics_of. simpl. repeat split; try lra; lia. }
  split; [exact H|]. split.
  - apply (proj1 C2_score_at_most_90 _ H).
  - apply (proj1 (proj2 C2_score_at_most_90) _ H).
Defined.

Section KernelFloatCheck.

Import PrimFloat FloatOps SpecFloat.

(** The kernel's binary64 arithmetic gives the same weights and the same
    saturated score, significand and exponent, as the rounding above. *)
Example kernel_float_agrees :
  Prim2SF 0.35%float = S754_finite false 6305039478318694 (-54) /\
  Prim2SF 0.30%float = S754_finite false 5404319552844595 (-54) /\
  Prim2SF (0.35 + 0.30)%float = S754_finite false 5854679515581644 (-53) /\
  Prim2SF (KernelFloat.weighted_score 1 1 1) =
    S754_finite false 6333186975989759 (-46) /\
  ltb (KernelFloat.weighted_score 1 1 1) 90 = true.
Proof.
  repeat split; vm_compute; reflexivity.
Qed.

End KernelFloatCheck.
